(** * CodeBuddy-AI: the review action (src/index.ts)

    A shallow embedding of the action's file filter, prompt builder, model
    client and orchestrator, and the properties of its specification.

    Conventions of the embedding.
    - A JavaScript string is a [string]; one character stands for one code
      unit, so that [String.length] is the source's [.length].
    - A JavaScript number that holds a count (file counts, line counts, the
      pull-request number, an HTTP status) is a [Z]; in that range the
      source's [+] and [-] are exact and a template literal renders the number
      in decimal.
    - An optional field ([patch?: string], a [null] body) is an [option].
    - The calls on [core], [octokit] and [fetch] are events of a trace; what
      the outside world answers is read from an environment [Env]. *)

From Stdlib Require Import String Ascii List ZArith Lia Bool.
From Stdlib Require Import DecimalString.
Import ListNotations.

Open Scope list_scope.
Open Scope string_scope.
Open Scope Z_scope.

(** ** Strings *)

Module Str.

Definition nl : string := String "010"%char EmptyString.
Definition dquote : string := String "034"%char EmptyString.

(** [`${n}`] for a number that holds an integer. *)
Definition of_number (n : Z) : string := NilZero.string_of_int (Z.to_int n).

(** [s.length] *)
Definition len (s : string) : Z := Z.of_nat (String.length s).

(** [s] starts with [p]: what is left of [s] after [p]. *)
Fixpoint strip_prefix (p s : string) : option string :=
  match p with
  | EmptyString => Some s
  | String c p' =>
      match s with
      | EmptyString => None
      | String d s' => if Ascii.eqb c d then strip_prefix p' s' else None
      end
  end.

(** [n] copies of the character [c]. *)
Fixpoint replicate (n : nat) (c : ascii) : string :=
  match n with
  | O => EmptyString
  | S n' => String c (replicate n' c)
  end.

(** The concatenation of a list of strings. *)
Definition join (l : list string) : string := fold_right String.append EmptyString l.

Definition ends_with (suffix s : string) : Prop :=
  exists pre, s = pre ++ suffix.

Definition contains (sub s : string) : Prop :=
  exists pre post, s = pre ++ sub ++ post.

End Str.

(** Truthiness of an optional string: [undefined], [null] and the empty string are falsy. *)
Definition truthy (s : option string) : bool :=
  match s with
  | Some (String _ _) => true
  | _ => false
  end.

(** [s || dflt] on an optional string. *)
Definition or_default (s : option string) (dflt : string) : string :=
  match s with
  | Some (String c r) => String c r
  | _ => dflt
  end.

(** ** Regular expressions

    The fragment of JavaScript regular expressions that
    [EXCLUDED_FILE_PATTERNS] is written in: literal characters (an escaped
    dot is the character), sequence, alternation in a group, and the
    assertion [$] (end of input, no [m] flag). *)

Inductive regex : Type :=
| Lit (s : string)
| Seq (r1 r2 : regex)
| Alt (r1 r2 : regex)
| EndOfInput.

(** The backtracking matcher: every way [r] can match at the start of the
    input, each given by the rest of the input after the match. *)
Fixpoint matchAt (r : regex) (input : string) : list string :=
  match r with
  | Lit s =>
      match Str.strip_prefix s input with
      | Some rest => [rest]
      | None => []
      end
  | Seq r1 r2 => flat_map (matchAt r2) (matchAt r1 input)
  | Alt r1 r2 => (matchAt r1 input ++ matchAt r2 input)%list
  | EndOfInput =>
      match input with
      | EmptyString => [EmptyString]
      | String _ _ => []
      end
  end.

(** [RegExp.prototype.test] of a pattern without flags: a match is looked for
    at every start index, from [0] to the length of the input. *)
Fixpoint test (r : regex) (s : string) : bool :=
  match matchAt r s with
  | _ :: _ => true
  | [] =>
      match s with
      | EmptyString => false
      | String _ s' => test r s'
      end
  end.

(** ** The file filter *)

Definition EXCLUDED_FILE_PATTERNS : list regex :=
  [ Seq (Lit ".lock") EndOfInput;
    Seq (Lit "package-lock.json") EndOfInput;
    Seq (Lit "yarn.lock") EndOfInput;
    Seq (Lit "pnpm-lock.yaml") EndOfInput;
    Seq (Lit ".min.") (Seq (Alt (Lit "js") (Lit "css")) EndOfInput);
    Seq (Lit ".bundle.") (Seq (Alt (Lit "js") (Lit "css")) EndOfInput);
    Lit "node_modules";
    Lit ".git";
    Seq (Lit ".DS_Store") EndOfInput;
    Seq (Lit ".log") EndOfInput;
    Seq (Lit ".tmp") EndOfInput;
    Seq (Lit ".temp") EndOfInput ].

Definition MAX_FILE_SIZE : Z := 50000.

(** ** Effects: a trace of calls, and exceptions *)

Inductive Event : Type :=
| CoreInfo (msg : string)
| CoreError (msg : string)
| CoreSetFailed (msg : string)
| ListFiles (owner repo : string) (pull_number : Z)
| Fetch (url prompt : string)
| CreateComment (owner repo : string) (issue_number : Z) (body : string).

(** A thrown value: an [Error] with its message, or anything else. *)
Inductive Thrown : Type :=
| ErrorInstance (message : string)
| NonError.

(** A computation: the events it emitted, then a thrown value or a result. *)
Definition M (A : Type) : Type := (list Event * (Thrown + A))%type.

Definition ret {A} (a : A) : M A := ([], inr a).

Definition throw {A} (e : Thrown) : M A := ([], inl e).

Definition bind {A B} (m : M A) (f : A -> M B) : M B :=
  match m with
  | (tr, inl e) => (tr, inl e)
  | (tr, inr a) => let (tr', r) := f a in ((tr ++ tr')%list, r)
  end.

Definition emit (e : Event) : M unit := ([e], inr tt).

(** [try { m } catch (error) { h error }] *)
Definition try_catch {A} (m : M A) (h : Thrown -> M A) : M A :=
  match m with
  | (tr, inl e) => let (tr', r) := h e in ((tr ++ tr')%list, r)
  | (tr, inr a) => (tr, inr a)
  end.

Definition events {A} (m : M A) : list Event := fst m.
Definition outcome {A} (m : M A) : Thrown + A := snd m.

Declare Scope m_scope.
Delimit Scope m_scope with M.
Notation "x <- m ;; k" := (bind m (fun x => k))
  (at level 61, m at next level, right associativity) : m_scope.
Notation "m ;; k" := (bind m (fun _ => k))
  (at level 61, right associativity) : m_scope.
Open Scope m_scope.

(** [Array.prototype.filter] with a callback that emits events. *)
Fixpoint filterM {A} (keep : A -> M bool) (l : list A) : M (list A) :=
  match l with
  | [] => ret []
  | x :: l' =>
      b <- keep x ;;
      rest <- filterM keep l' ;;
      ret (if b then x :: rest else rest)
  end.

Definition shouldExcludeFile (filename : string) (patch : option string) : M bool :=
  if existsb (fun pattern => test pattern filename) EXCLUDED_FILE_PATTERNS then
    ret true
  else
    match patch with
    | Some (String c p) =>
        let patch := String c p in
        if Str.len patch >? MAX_FILE_SIZE then
          emit (CoreInfo ("Skipping large file: " ++ filename ++ " ("
                          ++ Str.of_number (Str.len patch) ++ " characters)")) ;;
          ret true
        else ret false
    | _ => ret false
    end.

(** ** The data model *)

Record FileChange : Type := {
  filename : string;
  patch : option string;
  status : string;
  additions : Z;
  deletions : Z;
  changes : Z
}.

Record Part : Type := { text : option string }.
Record Content : Type := { parts : option (list Part) }.
Record Candidate : Type := { content : option Content }.
Record GeminiError : Type := { message : option string }.

Record GeminiResponse : Type := {
  candidates : option (list Candidate);
  error : option GeminiError
}.

(** ** The prompt builder *)

(** [l.forEach((x, index) => ...)] on a loop state that the callback updates. *)
Fixpoint forEach {A St} (callback : A -> Z -> St -> St)
    (l : list A) (index : Z) (st : St) : St :=
  match l with
  | [] => st
  | x :: l' => forEach callback l' (index + 1) (callback x index st)
  end.

(** The text that the loop of [createReviewPrompt] appends for one file. *)
Definition file_block (file : FileChange) (index : Z) (diff : string) : string :=
  "**File " ++ Str.of_number (index + 1) ++ ": " ++ filename file ++ "** ("
  ++ status file ++ ", +" ++ Str.of_number (additions file) ++ "/-"
  ++ Str.of_number (deletions file) ++ ")" ++ Str.nl
  ++ "```diff" ++ Str.nl
  ++ diff ++ Str.nl
  ++ "```" ++ Str.nl
  ++ Str.nl.

(** The opening template of the prompt, in three pieces: up to the
    description line, the two lines that carry the counts, and the rest. *)
Definition context_intro (prTitle prBody : option string) : string :=
  "You are an expert code reviewer with extensive experience in software development. Please review the following pull request changes and provide constructive, actionable feedback." ++ Str.nl
  ++ Str.nl
  ++ "**Pull Request Context:**" ++ Str.nl
  ++ "- Title: " ++ or_default prTitle "No title provided" ++ Str.nl
  ++ "- Description: " ++ or_default prBody "No description provided" ++ Str.nl.

Definition count_lines (fileCount totalChanges : Z) : string :=
  "- Files changed: " ++ Str.of_number fileCount ++ Str.nl
  ++ "- Total changes: " ++ Str.of_number totalChanges ++ " lines" ++ Str.nl.

Definition review_guidelines : string :=
  Str.nl
  ++ "**Review Guidelines:**" ++ Str.nl
  ++ "1. Focus on code quality, security, performance, and maintainability" ++ Str.nl
  ++ "2. Identify potential bugs, edge cases, and improvements" ++ Str.nl
  ++ "3. Check for proper error handling and validation" ++ Str.nl
  ++ "4. Ensure code follows best practices and conventions" ++ Str.nl
  ++ "5. Suggest specific improvements with clear explanations" ++ Str.nl
  ++ "6. Be constructive and professional in your feedback" ++ Str.nl
  ++ Str.nl
  ++ "**Code Changes to Review:**" ++ Str.nl
  ++ Str.nl.

Definition prompt_context (prTitle prBody : option string)
    (fileCount totalChanges : Z) : string :=
  context_intro prTitle prBody
  ++ count_lines fileCount totalChanges
  ++ review_guidelines.

Definition prompt_closing : string :=
  "Please provide a comprehensive review covering:" ++ Str.nl
  ++ "- Overall assessment of the changes" ++ Str.nl
  ++ "- Specific issues or concerns" ++ Str.nl
  ++ "- Suggestions for improvement" ++ Str.nl
  ++ "- Security considerations (if any)" ++ Str.nl
  ++ "- Performance implications (if any)" ++ Str.nl
  ++ Str.nl
  ++ "Format your response in a clear, structured way that will be helpful for the developer.".

Definition createReviewPrompt (files : list FileChange)
    (prTitle prBody : option string) : string :=
  let fileCount := Z.of_nat (List.length files) in
  let totalChanges := fold_left (fun sum file => sum + changes file) files 0 in
  let prompt := prompt_context prTitle prBody fileCount totalChanges in
  let prompt :=
    forEach (fun file index prompt =>
               match patch file with
               | Some (String c p) => prompt ++ file_block file index (String c p)
               | _ => prompt
               end) files 0 prompt in
  let prompt := prompt ++ prompt_closing in
  prompt.

(** ** The model client *)

Record Response : Type := {
  ok : bool;
  http_status : Z;
  statusText : string;
  response_text : Thrown + string;
  response_json : Thrown + GeminiResponse
}.

(** [context.payload.pull_request] *)
Record PullRequest : Type := {
  number : Z;
  title : string;
  body : option string
}.

(** What the outside world answers to the calls of one run. *)
Record Env : Type := {
  input_gemini_api_key : string;
  env_GEMINI_API_KEY : option string;
  env_GITHUB_TOKEN : option string;
  payload_pull_request : option PullRequest;
  repo_owner : string;
  repo_repo : string;
  listFiles_reply : string + list FileChange;
  fetch_reply : Thrown + Response;
  createComment_reply : string + unit
}.

Definition lift {A} (r : Thrown + A) : M A := ([], r).

Definition fetch (env : Env) (url prompt : string) : M Response :=
  emit (Fetch url prompt) ;; lift (fetch_reply env).

(** [data?.candidates?.[0]?.content?.parts?.[0]?.text] *)
Definition first_text (data : GeminiResponse) : option string :=
  match candidates data with
  | Some (candidate :: _) =>
      match content candidate with
      | Some c =>
          match parts c with
          | Some (part :: _) => text part
          | _ => None
          end
      | None => None
      end
  | _ => None
  end.

(** [`${v}`] of an optional string. *)
Definition render_optional (v : option string) : string :=
  match v with
  | Some s => s
  | None => "undefined"
  end.

(** The endpoint of the request, with the key in its query. *)
Definition request_url (apiKey : string) : string :=
  "https://generativelanguage.googleapis.com/v1beta/models/gemini-1.5-flash:generateContent?key="
  ++ apiKey.

Definition getGeminiReview (env : Env) (prompt apiKey : string) : M string :=
  let url := request_url apiKey in
  try_catch
    (response <- fetch env url prompt ;;
     (if negb (ok response) then
        errorText <- lift (response_text response) ;;
        throw (ErrorInstance ("Gemini API request failed: "
                 ++ Str.of_number (http_status response) ++ " "
                 ++ statusText response ++ " - " ++ errorText))
      else ret tt) ;;
     data <- lift (response_json response) ;;
     match error data with
     | Some err =>
         throw (ErrorInstance ("Gemini API error: " ++ render_optional (message err)))
     | None =>
         match first_text data with
         | Some (String c r) => ret (String c r)
         | _ => throw (ErrorInstance "No review content received from Gemini API")
         end
     end)
    (fun error =>
       match error with
       | ErrorInstance msg => throw (ErrorInstance ("Failed to get AI review: " ++ msg))
       | NonError => throw (ErrorInstance "Unknown error occurred while getting AI review")
       end).

(** ** The orchestrator *)

Definition reject {A} (r : string + A) : M A :=
  match r with
  | inl msg => throw (ErrorInstance msg)
  | inr a => ret a
  end.

Definition listFiles (env : Env) (owner repo : string) (pull_number : Z)
  : M (list FileChange) :=
  emit (ListFiles owner repo pull_number) ;; reject (listFiles_reply env).

Definition createComment (env : Env) (owner repo : string) (issue_number : Z)
    (body : string) : M unit :=
  emit (CreateComment owner repo issue_number body) ;;
  reject (createComment_reply env).

Definition validateInputs (env : Env) : M (string * string) :=
  let geminiKey :=
    match input_gemini_api_key env with
    | String c r => Some (String c r)
    | EmptyString => env_GEMINI_API_KEY env
    end in
  let githubToken := env_GITHUB_TOKEN env in
  match geminiKey with
  | Some (String c r) =>
      match githubToken with
      | Some (String d t) => ret (String c r, String d t)
      | _ => throw (ErrorInstance "GitHub token is missing. This should be automatically provided by GitHub Actions.")
      end
  | _ => throw (ErrorInstance "Gemini API key is missing. Please provide it via 'gemini_api_key' input or 'GEMINI_API_KEY' environment variable.")
  end.

(** The summary of the posted comment. *)
Definition review_summary (files filesToReview : list FileChange) : string :=
  "**📊 Review Summary:**" ++ Str.nl
  ++ "- Files reviewed: " ++ Str.of_number (Z.of_nat (List.length filesToReview))
  ++ "/" ++ Str.of_number (Z.of_nat (List.length files)) ++ Str.nl
  ++ "- Total changes: "
  ++ Str.of_number (fold_left (fun sum file => sum + changes file) filesToReview 0)
  ++ " lines" ++ Str.nl
  ++ "- Files excluded: "
  ++ Str.of_number (Z.of_nat (List.length files) - Z.of_nat (List.length filesToReview))
  ++ " (large files, lock files, etc.)" ++ Str.nl
  ++ Str.nl.

Definition comment_header : string :=
  "🤖 **AI Code Review**" ++ Str.nl ++ Str.nl.

Definition run (env : Env) : M unit :=
  try_catch
    (emit (CoreInfo "🤖 Starting AI Code Review Bot...") ;;
     keys <- validateInputs env ;;
     let (geminiKey, githubToken) := keys in
     emit (CoreInfo "✅ Input validation passed") ;;
     match payload_pull_request env with
     | None => emit (CoreSetFailed "This action only runs on pull_request events.")
     | Some pr =>
         let prNumber := number pr in
         let repo := repo_repo env in
         let owner := repo_owner env in
         let prTitle := title pr in
         let prBody := body pr in
         emit (CoreInfo ("📋 Reviewing PR #" ++ Str.of_number prNumber ++ ": "
                         ++ Str.dquote ++ prTitle ++ Str.dquote)) ;;
         emit (CoreInfo "📁 Fetching changed files...") ;;
         files <- listFiles env owner repo prNumber ;;
         filesToReview <-
           filterM (fun file =>
                      exclude <- shouldExcludeFile (filename file) (patch file) ;;
                      ret (negb exclude)) files ;;
         emit (CoreInfo ("📊 Found " ++ Str.of_number (Z.of_nat (List.length files))
                         ++ " changed files, reviewing "
                         ++ Str.of_number (Z.of_nat (List.length filesToReview))
                         ++ " files")) ;;
         if Z.of_nat (List.length filesToReview) =? 0 then
           emit (CoreInfo "ℹ️ No files to review (all files were filtered out)")
         else
           let reviewPrompt := createReviewPrompt filesToReview (Some prTitle) prBody in
           emit (CoreInfo "🧠 Getting AI review from Gemini...") ;;
           reviewText <- getGeminiReview env reviewPrompt geminiKey ;;
           let summary := review_summary files filesToReview in
           emit (CoreInfo "💬 Posting review comment...") ;;
           createComment env owner repo prNumber
             (comment_header ++ summary ++ reviewText) ;;
           emit (CoreInfo "✅ Review posted successfully!")
     end)
    (fun error =>
       let errorMessage :=
         match error with
         | ErrorInstance (String c r) => String c r
         | _ => "Unknown error occurred"
         end in
       emit (CoreError ("❌ Error: " ++ errorMessage)) ;;
       emit (CoreSetFailed errorMessage)).

(** ** Vocabulary of the specification *)

(** The file names that the exclusion list describes: lock files, minified
    and bundled assets, dependency and version-control directories, artifacts
    of the operating system, log and temporary files. *)
Definition excluded_name (f : string) : Prop :=
  Str.ends_with ".lock" f \/
  Str.ends_with "package-lock.json" f \/
  Str.ends_with "yarn.lock" f \/
  Str.ends_with "pnpm-lock.yaml" f \/
  (Str.ends_with ".min.js" f \/ Str.ends_with ".min.css" f) \/
  (Str.ends_with ".bundle.js" f \/ Str.ends_with ".bundle.css" f) \/
  Str.contains "node_modules" f \/
  Str.contains ".git" f \/
  Str.ends_with ".DS_Store" f \/
  Str.ends_with ".log" f \/
  Str.ends_with ".tmp" f \/
  Str.ends_with ".temp" f.

(** The decision of the filter on a file, read off [shouldExcludeFile]. *)
Definition excluded (file : FileChange) : bool :=
  match outcome (shouldExcludeFile (filename file) (patch file)) with
  | inr b => b
  | inl _ => false
  end.

(** The sum of the [changes] fields of a file list. *)
Definition total_changes (files : list FileChange) : Z :=
  fold_right Z.add 0 (map changes files).

(** A list with the index of each element. *)
Fixpoint with_index {A} (l : list A) (index : Z) : list (Z * A) :=
  match l with
  | [] => []
  | x :: l' => (index, x) :: with_index l' (index + 1)
  end.

(** The per-file blocks of a prompt: one for each file whose patch is present
    and not empty, in the order of the list. *)
Definition per_file_blocks (files : list FileChange) : list string :=
  map (fun entry : Z * FileChange =>
         file_block (snd entry) (fst entry) (or_default (patch (snd entry)) EmptyString))
      (filter (fun entry : Z * FileChange => truthy (patch (snd entry)))
              (with_index files 0)).

(** Observations on a trace. *)
Definition is_info (e : Event) : bool :=
  match e with CoreInfo _ => true | _ => false end.

Definition is_service_call (e : Event) : bool :=
  match e with Fetch _ _ => true | _ => false end.

Definition is_comment (e : Event) : bool :=
  match e with CreateComment _ _ _ _ => true | _ => false end.

Definition is_failure (e : Event) : bool :=
  match e with CoreError _ | CoreSetFailed _ => true | _ => false end.

(** The log lines of the filter over a file list. *)
Definition filter_log (files : list FileChange) : list Event :=
  flat_map (fun file => events (shouldExcludeFile (filename file) (patch file)))
           files.

(** ** A sample pull request *)

Module Sample.

Definition big_patch : string := Str.replicate (Z.to_nat 50001) "a"%char.

Definition change (name : string) (diff : option string) (n : Z) : FileChange :=
  {| filename := name; patch := diff; status := "modified";
     additions := n; deletions := 0; changes := n |}.

Definition files : list FileChange :=
  [ change "src/index.ts" (Some "+const a = 1;") 10;
    change "package-lock.json" (Some "+lock") 400;
    change "README.md" (Some "+docs") 3;
    change "dist/index.js" (Some big_patch) 900;
    change "action.yml" None 2 ].

Definition pr : PullRequest :=
  {| number := 7; title := "Add file filter"; body := None |}.

Definition answer (v : option string) (e : option GeminiError) : Response :=
  {| ok := true; http_status := 200; statusText := "OK";
     response_text := inr EmptyString;
     response_json :=
       inr {| candidates := Some [ {| content := Some {| parts := Some [ {| text := v |} ] |} |} ];
              error := e |} |}.

Definition env (changed : list FileChange) (reply : Thrown + Response) : Env :=
  {| input_gemini_api_key := "key";
     env_GEMINI_API_KEY := None;
     env_GITHUB_TOKEN := Some "token";
     payload_pull_request := Some pr;
     repo_owner := "octo";
     repo_repo := "demo";
     listFiles_reply := inr changed;
     fetch_reply := reply;
     createComment_reply := inr tt |}.

End Sample.

(** The calls that leave the process: to the source-control platform and to
    the generative-text service. *)
Definition is_external (e : Event) : bool :=
  match e with
  | ListFiles _ _ _ | Fetch _ _ | CreateComment _ _ _ _ => true
  | _ => false
  end.

(** ** More sample runs *)

Module Scenario.

Definition env_with (input : string) (token : option string)
    (pr : option PullRequest) (changed : string + list FileChange)
    (reply : Thrown + Response) (comment : string + unit) : Env :=
  {| input_gemini_api_key := input;
     env_GEMINI_API_KEY := Some "from-env";
     env_GITHUB_TOKEN := token;
     payload_pull_request := pr;
     repo_owner := "octo";
     repo_repo := "demo";
     listFiles_reply := changed;
     fetch_reply := reply;
     createComment_reply := comment |}.

Definition small_files : list FileChange :=
  [ Sample.change "src/index.ts" (Some "+const a = 1;") 10;
    Sample.change "yarn.lock" (Some "+lock") 400;
    Sample.change "logo.png" None 0 ].

End Scenario.

(** ** The sample code under review (src/sample-code.js, src/test-code.js) *)

Module SampleCode.

(** [for (let k = from; k < from + count; k++) body(k)] on a loop state. *)
Fixpoint for_loop {St} (from count : nat) (body : nat -> St -> St) (st : St) : St :=
  match count with
  | O => st
  | S count' => for_loop (S from) count' body (body from st)
  end.

Section FindDuplicates.

(** The values of the array and [===] on them. *)
Variable A : Type.
Variable strict_eq : A -> A -> bool.

Definition findDuplicates (arr : list A) : list A :=
  let duplicates := [] in
  for_loop 0 (List.length arr - 0)
    (fun i duplicates =>
       for_loop (i + 1) (List.length arr - (i + 1))
         (fun j duplicates =>
            match nth_error arr i, nth_error arr j with
            | Some x, Some y =>
                if strict_eq x y then (duplicates ++ [x])%list else duplicates
            | _, _ => duplicates
            end)
         duplicates)
    duplicates.

(** How many elements of [l] are [===] to [x]. *)
Definition occurrences (x : A) (l : list A) : nat :=
  List.length (filter (strict_eq x) l).

(** One copy of an element for each later element equal to it. *)
Fixpoint later_equals (l : list A) : list A :=
  match l with
  | [] => []
  | x :: l' => (repeat x (occurrences x l') ++ later_equals l')%list
  end.

End FindDuplicates.

End SampleCode.

(** * Properties *)

(** ** Strings *)

Module StrFacts.

Lemma app_assoc (a b c : string) : (a ++ b) ++ c = a ++ (b ++ c).
Proof. induction a as [|x a IH]; simpl; [reflexivity | now rewrite IH]. Qed.

Lemma app_nil_r (a : string) : a ++ EmptyString = a.
Proof. induction a as [|x a IH]; simpl; [reflexivity | now rewrite IH]. Qed.

Lemma strip_prefix_app (p rest : string) :
  Str.strip_prefix p (p ++ rest) = Some rest.
Proof.
  induction p as [|c p IH]; simpl; [reflexivity|].
  now rewrite Ascii.eqb_refl.
Qed.

Lemma strip_prefix_Some (p s rest : string) :
  Str.strip_prefix p s = Some rest -> s = p ++ rest.
Proof.
  revert s; induction p as [|c p IH]; intros s; simpl.
  - now intros [= ->].
  - destruct s as [|d s]; [discriminate|].
    destruct (Ascii.eqb_spec c d) as [->|_]; [|discriminate].
    intros H. now rewrite (IH _ H).
Qed.

Lemma strip_prefix_iff (p s rest : string) :
  Str.strip_prefix p s = Some rest <-> s = p ++ rest.
Proof.
  split; [apply strip_prefix_Some | intros ->; apply strip_prefix_app].
Qed.

End StrFacts.

(** ** The matcher *)

Section Matcher.

Lemma matchAt_Lit (l s rest : string) :
  In rest (matchAt (Lit l) s) <-> s = l ++ rest.
Proof.
  simpl. rewrite <- StrFacts.strip_prefix_iff.
  destruct (Str.strip_prefix l s) as [r|]; simpl; split.
  - intros [-> | []]; reflexivity.
  - intros [= ->]; now left.
  - intros [].
  - discriminate.
Qed.

Lemma matchAt_Seq (r1 r2 : regex) (s rest : string) :
  In rest (matchAt (Seq r1 r2) s) <->
  exists mid, In mid (matchAt r1 s) /\ In rest (matchAt r2 mid).
Proof. simpl. apply in_flat_map. Qed.

Lemma matchAt_Alt (r1 r2 : regex) (s rest : string) :
  In rest (matchAt (Alt r1 r2) s) <->
  In rest (matchAt r1 s) \/ In rest (matchAt r2 s).
Proof. simpl. apply in_app_iff. Qed.

Lemma matchAt_EndOfInput (s rest : string) :
  In rest (matchAt EndOfInput s) <-> s = EmptyString /\ rest = EmptyString.
Proof.
  destruct s; simpl; split.
  - intros [<- | []]; now split.
  - intros [_ ->]; now left.
  - intros [].
  - intros [H _]; discriminate.
Qed.

(** [test] succeeds exactly when the pattern matches at some start index. *)
Lemma test_spec (r : regex) (s : string) :
  test r s = true <->
  exists pre suf rest, s = pre ++ suf /\ In rest (matchAt r suf).
Proof.
  induction s as [|c s IH]; simpl.
  - destruct (matchAt r EmptyString) as [|x l] eqn:E; split.
    + discriminate.
    + intros (pre & suf & rest & Hs & Hin).
      destruct pre; [|discriminate]. simpl in Hs; subst suf.
      rewrite E in Hin. destruct Hin.
    + intros _. exists EmptyString, EmptyString, x. split; [reflexivity|].
      rewrite E. now left.
    + reflexivity.
  - destruct (matchAt r (String c s)) as [|x l] eqn:E; split.
    + intros H. apply IH in H as (pre & suf & rest & -> & Hin).
      now exists (String c pre), suf, rest.
    + intros (pre & suf & rest & Hs & Hin).
      destruct pre as [|d pre]; simpl in Hs.
      * subst suf. rewrite E in Hin. destruct Hin.
      * injection Hs as -> ->. apply IH. now exists pre, suf, rest.
    + intros _. exists EmptyString, (String c s), x. split; [reflexivity|].
      rewrite E. now left.
    + reflexivity.
Qed.

(** [/l$/] looks for the suffix [l]. *)
Lemma test_suffix (l s : string) :
  test (Seq (Lit l) EndOfInput) s = true <-> Str.ends_with l s.
Proof.
  rewrite test_spec. unfold Str.ends_with. split.
  - intros (pre & suf & rest & -> & Hin).
    apply matchAt_Seq in Hin as (mid & H1 & H2).
    apply matchAt_Lit in H1. apply matchAt_EndOfInput in H2 as [-> ->].
    rewrite StrFacts.app_nil_r in H1. subst suf. now exists pre.
  - intros (pre & ->). exists pre, l, EmptyString. split; [reflexivity|].
    apply matchAt_Seq. exists EmptyString. split.
    + apply matchAt_Lit. now rewrite StrFacts.app_nil_r.
    + now apply matchAt_EndOfInput.
Qed.

(** [/l(x|y)$/] looks for the suffix [lx] or the suffix [ly]. *)
Lemma test_suffix_alt (l x y s : string) :
  test (Seq (Lit l) (Seq (Alt (Lit x) (Lit y)) EndOfInput)) s = true <->
  Str.ends_with (l ++ x) s \/ Str.ends_with (l ++ y) s.
Proof.
  rewrite test_spec. unfold Str.ends_with. split.
  - intros (pre & suf & rest & -> & Hin).
    apply matchAt_Seq in Hin as (mid & H1 & H2).
    apply matchAt_Lit in H1. subst suf.
    apply matchAt_Seq in H2 as (mid' & H2 & H3).
    apply matchAt_EndOfInput in H3 as [-> ->].
    apply matchAt_Alt in H2 as [H2 | H2];
      apply matchAt_Lit in H2; rewrite StrFacts.app_nil_r in H2; subst mid;
      [left | right]; now exists pre.
  - intros H.
    assert (exists pre z, s = pre ++ l ++ z /\ (z = x \/ z = y))
      as (pre & z & -> & Hz).
    { destruct H as [(pre & ->) | (pre & ->)]; exists pre;
        [exists x | exists y]; auto. }
    exists pre, (l ++ z), EmptyString. split; [reflexivity|].
    apply matchAt_Seq. exists z. split; [now apply matchAt_Lit|].
    apply matchAt_Seq. exists EmptyString. split; [|now apply matchAt_EndOfInput].
    apply matchAt_Alt.
    destruct Hz as [-> | ->]; [left | right];
      apply matchAt_Lit; now rewrite StrFacts.app_nil_r.
Qed.

(** [/l/] looks for [l] anywhere. *)
Lemma test_substring (l s : string) :
  test (Lit l) s = true <-> Str.contains l s.
Proof.
  rewrite test_spec. unfold Str.contains. split.
  - intros (pre & suf & rest & -> & Hin).
    apply matchAt_Lit in Hin. subst suf. now exists pre, rest.
  - intros (pre & post & ->). exists pre, (l ++ post), post.
    split; [reflexivity | now apply matchAt_Lit].
Qed.

End Matcher.

(** ** The file filter *)

Section Filter.

Lemma excluded_by_pattern (pattern : regex) (f : string) (diff : option string) :
  In pattern EXCLUDED_FILE_PATTERNS ->
  test pattern f = true ->
  shouldExcludeFile f diff = ret true.
Proof.
  intros Hin Ht. unfold shouldExcludeFile.
  assert (existsb (fun pattern => test pattern f) EXCLUDED_FILE_PATTERNS = true)
    as ->.
  { apply existsb_exists. now exists pattern. }
  reflexivity.
Qed.

Lemma excluded_name_pattern (f : string) :
  excluded_name f <->
  exists pattern, In pattern EXCLUDED_FILE_PATTERNS /\ test pattern f = true.
Proof.
  unfold excluded_name.
  pose proof (test_suffix_alt ".min." "js" "css" f) as Hmin.
  pose proof (test_suffix_alt ".bundle." "js" "css" f) as Hbundle.
  cbn [String.append] in Hmin, Hbundle.
  rewrite <- Hmin, <- Hbundle. clear Hmin Hbundle.
  rewrite <- !test_suffix, <- !test_substring.
  split.
  - intros H.
    repeat (destruct H as [H | H];
            [eexists; split; [|exact H]; simpl; tauto|]).
    eexists; split; [|exact H]; simpl; tauto.
  - intros (pattern & Hin & Ht). simpl in Hin.
    repeat (destruct Hin as [<- | Hin]; [tauto|]).
    destruct Hin.
Qed.

End Filter.

(** C1. Every file name that one of the fixed exclusion patterns describes
    (a lock file, a minified or bundled asset, version-control metadata, an
    artifact of the operating system, a log or temporary file) is excluded,
    whatever the optional patch is; nothing is logged. *)
Theorem shouldExcludeFile_excluded_name (f : string) (diff : option string) :
  excluded_name f -> shouldExcludeFile f diff = ret true.
Proof.
  intros H. apply excluded_name_pattern in H as (pattern & Hin & Ht).
  now apply (excluded_by_pattern pattern).
Qed.

Lemma shouldExcludeFile_excluded_name_witness :
  shouldExcludeFile "web/app.min.css" (Some "+body{}") = ret true.
Proof.
  apply shouldExcludeFile_excluded_name.
  unfold excluded_name. do 4 right. left. right.
  exists "web/app". reflexivity.
Defined.

(** C2. A patch of more than 50,000 characters is excluded, whatever the file
    name is. *)
Theorem shouldExcludeFile_large_patch (f diff : string) :
  MAX_FILE_SIZE < Str.len diff ->
  outcome (shouldExcludeFile f (Some diff)) = inr true.
Proof.
  intros Hlen. unfold shouldExcludeFile.
  destruct (existsb _ EXCLUDED_FILE_PATTERNS); [reflexivity|].
  destruct diff as [|c p].
  - unfold MAX_FILE_SIZE, Str.len in Hlen. simpl in Hlen. lia.
  - apply Z.gtb_lt in Hlen. rewrite Hlen. reflexivity.
Qed.

Lemma shouldExcludeFile_large_patch_witness :
  outcome (shouldExcludeFile "src/big.ts" (Some Sample.big_patch)) = inr true.
Proof.
  apply shouldExcludeFile_large_patch. vm_compute. reflexivity.
Defined.

(** C9. A file name that contains [.git] or [node_modules] anywhere in its
    path is excluded for every patch: the two patterns are not anchored. That
    covers every file under a [.github/] directory. *)
Theorem shouldExcludeFile_git_node_modules (f : string) (diff : option string) :
  Str.contains ".git" f \/ Str.contains "node_modules" f \/
  Str.contains ".github/" f ->
  shouldExcludeFile f diff = ret true.
Proof.
  intros [H | [H | (pre & post & ->)]].
  - apply (excluded_by_pattern (Lit ".git")); [simpl; tauto|].
    now apply test_substring.
  - apply (excluded_by_pattern (Lit "node_modules")); [simpl; tauto|].
    now apply test_substring.
  - apply (excluded_by_pattern (Lit ".git")); [simpl; tauto|].
    apply test_substring. now exists pre, ("hub/" ++ post).
Qed.

Lemma shouldExcludeFile_git_node_modules_witness :
  shouldExcludeFile ".github/workflows/ai-review.yml" (Some "+on: pull_request")
  = ret true.
Proof.
  apply shouldExcludeFile_git_node_modules.
  right. right. exists EmptyString, "workflows/ai-review.yml". reflexivity.
Defined.

(** ** The prompt builder *)

Section Prompt.

Lemma reduce_changes (files : list FileChange) (acc : Z) :
  fold_left (fun sum file => sum + changes file) files acc
  = acc + total_changes files.
Proof.
  revert acc. induction files as [|file files IH]; intros acc.
  - unfold total_changes. simpl. lia.
  - simpl. rewrite IH. unfold total_changes. simpl. lia.
Qed.

Lemma forEach_blocks (files : list FileChange) (index : Z) (prompt : string) :
  forEach (fun file index prompt =>
             match patch file with
             | Some (String c p) => prompt ++ file_block file index (String c p)
             | _ => prompt
             end) files index prompt
  = prompt
    ++ Str.join
         (map (fun entry : Z * FileChange =>
                 file_block (snd entry) (fst entry)
                            (or_default (patch (snd entry)) EmptyString))
              (filter (fun entry : Z * FileChange => truthy (patch (snd entry)))
                      (with_index files index))).
Proof.
  revert index prompt. induction files as [|file files IH]; intros index prompt.
  - simpl. now rewrite StrFacts.app_nil_r.
  - cbn [forEach with_index filter snd]. rewrite IH.
    destruct (patch file) as [[|c p]|] eqn:E;
      cbn [truthy map Str.join fold_right fst snd]; rewrite ?E;
      [reflexivity | | reflexivity].
    now rewrite StrFacts.app_assoc.
Qed.

Lemma createReviewPrompt_shape (files : list FileChange)
    (prTitle prBody : option string) :
  createReviewPrompt files prTitle prBody
  = prompt_context prTitle prBody (Z.of_nat (List.length files))
                   (total_changes files)
    ++ Str.join (per_file_blocks files)
    ++ prompt_closing.
Proof.
  unfold createReviewPrompt, per_file_blocks. cbv zeta.
  rewrite forEach_blocks, reduce_changes, Z.add_0_l.
  apply StrFacts.app_assoc.
Qed.

Lemma file_block_contents (file : FileChange) (index : Z) (diff : string) :
  Str.contains (filename file) (file_block file index diff) /\
  Str.contains (status file) (file_block file index diff) /\
  Str.contains ("+" ++ Str.of_number (additions file)
                ++ "/-" ++ Str.of_number (deletions file))
               (file_block file index diff) /\
  Str.contains (Str.nl ++ diff ++ Str.nl) (file_block file index diff).
Proof.
  unfold Str.contains, file_block. repeat split.
  - exists ("**File " ++ Str.of_number (index + 1) ++ ": "). eexists.
    rewrite !StrFacts.app_assoc. reflexivity.
  - exists ("**File " ++ Str.of_number (index + 1) ++ ": " ++ filename file
            ++ "** ("). eexists.
    rewrite !StrFacts.app_assoc. reflexivity.
  - exists ("**File " ++ Str.of_number (index + 1) ++ ": " ++ filename file
            ++ "** (" ++ status file ++ ", "). eexists.
    rewrite !StrFacts.app_assoc. reflexivity.
  - exists ("**File " ++ Str.of_number (index + 1) ++ ": " ++ filename file
            ++ "** (" ++ status file ++ ", +" ++ Str.of_number (additions file)
            ++ "/-" ++ Str.of_number (deletions file) ++ ")" ++ Str.nl
            ++ "```diff"). eexists.
    rewrite !StrFacts.app_assoc. reflexivity.
Qed.

End Prompt.

(** C4. The prompt contains the decimal rendering of the number of files, as
    the files-changed count, and of the sum of the [changes] fields of all the
    files, as the total-changes count. *)
Theorem createReviewPrompt_counts (files : list FileChange)
    (prTitle prBody : option string) :
  Str.contains
    ("- Files changed: " ++ Str.of_number (Z.of_nat (List.length files)) ++ Str.nl
     ++ "- Total changes: " ++ Str.of_number (total_changes files) ++ " lines"
     ++ Str.nl)
    (createReviewPrompt files prTitle prBody).
Proof.
  rewrite createReviewPrompt_shape. unfold prompt_context.
  exists (context_intro prTitle prBody).
  exists (review_guidelines ++ Str.join (per_file_blocks files) ++ prompt_closing).
  fold (count_lines (Z.of_nat (List.length files)) (total_changes files)).
  now rewrite !StrFacts.app_assoc.
Qed.

(** C5. Between its opening and its closing text the prompt holds one block
    for each file whose patch is present and not empty, in the order of the
    list, and nothing for the other files; the block of a file holds its name,
    its status, its addition and deletion counts and its diff text verbatim. *)
Theorem createReviewPrompt_per_file_blocks (files : list FileChange)
    (prTitle prBody : option string) :
  createReviewPrompt files prTitle prBody
  = prompt_context prTitle prBody (Z.of_nat (List.length files))
                   (total_changes files)
    ++ Str.join
         (map (fun entry : Z * FileChange =>
                 file_block (snd entry) (fst entry)
                            (or_default (patch (snd entry)) EmptyString))
              (filter (fun entry : Z * FileChange => truthy (patch (snd entry)))
                      (with_index files 0)))
    ++ prompt_closing
  /\ forall (file : FileChange) (index : Z) (diff : string),
       Str.contains (filename file) (file_block file index diff) /\
       Str.contains (status file) (file_block file index diff) /\
       Str.contains ("+" ++ Str.of_number (additions file)
                     ++ "/-" ++ Str.of_number (deletions file))
                    (file_block file index diff) /\
       Str.contains (Str.nl ++ diff ++ Str.nl) (file_block file index diff).
Proof.
  split; [apply createReviewPrompt_shape | apply file_block_contents].
Qed.

(** ** The model client *)

Section Client.

Variable env : Env.
Variables prompt apiKey : string.

(** The client makes one request; it throws an [Error] with a message or
    returns a text that is not empty. *)
Lemma getGeminiReview_cases :
  exists r, getGeminiReview env prompt apiKey =
    ([Fetch (request_url apiKey) prompt], r)
  /\ match r with
     | inl (ErrorInstance (String _ _)) => True
     | inl _ => False
     | inr (String _ _) => True
     | inr _ => False
     end.
Proof.
  unfold getGeminiReview, fetch, lift, emit, throw, ret, bind, try_catch.
  destruct (fetch_reply env) as [[msg|]|response].
  - eexists; split; [reflexivity|]. simpl. exact I.
  - eexists; split; [reflexivity|]. simpl. exact I.
  - destruct (ok response); simpl.
    + destruct (response_json response) as [[msg|]|data].
      * eexists; split; [reflexivity|]. simpl. exact I.
      * eexists; split; [reflexivity|]. simpl. exact I.
      * destruct (error data) as [err|].
        -- eexists; split; [reflexivity|]. simpl. exact I.
        -- destruct (first_text data) as [[|c r]|];
             (eexists; split; [reflexivity|]; simpl; exact I).
    + destruct (response_text response) as [[msg|]|errorText];
        (eexists; split; [reflexivity|]; simpl; exact I).
Qed.

Lemma getGeminiReview_error_field
    (response : Response) (data : GeminiResponse) (err : GeminiError) :
  fetch_reply env = inr response ->
  response_json response = inr data ->
  error data = Some err ->
  exists c m,
    getGeminiReview env prompt apiKey
    = ([Fetch (request_url apiKey) prompt],
       inl (ErrorInstance (String c m)))
    /\ (ok response = true ->
        String c m = "Failed to get AI review: Gemini API error: "
                     ++ render_optional (message err)).
Proof.
  intros Hreply Hjson Herr.
  unfold getGeminiReview, fetch, lift, emit, throw, ret, bind, try_catch.
  rewrite Hreply, Hjson.
  destruct (ok response); cbn [negb].
  - rewrite Herr. do 2 eexists. split; reflexivity.
  - destruct (response_text response) as [[msg|]|errorText];
      do 2 eexists; (split; [reflexivity | discriminate]).
Qed.

Lemma getGeminiReview_text
    (response : Response) (data : GeminiResponse) (review : string) :
  fetch_reply env = inr response ->
  ok response = true ->
  response_json response = inr data ->
  error data = None ->
  first_text data = Some review ->
  review <> EmptyString ->
  getGeminiReview env prompt apiKey
  = ([Fetch (request_url apiKey) prompt],
     inr review).
Proof.
  intros Hreply Hok Hjson Herr Htext Hne.
  unfold getGeminiReview, fetch, lift, emit, throw, ret, bind, try_catch.
  rewrite Hreply, Hok, Hjson. cbn [negb]. rewrite Herr, Htext.
  destruct review as [|c r]; [now destruct Hne | reflexivity].
Qed.

End Client.

(** C6. Given the HTTP response, [getGeminiReview] returns a review text
    exactly when the status is a success, the parsed body has no error field
    and the first part of the first candidate holds a text that is not empty.
    Otherwise it fails: with the status and the body text when the status is
    not a success, with the message of the error field when there is one, and
    with the empty-response message when no text can be extracted. *)
Theorem getGeminiReview_result (env : Env) (prompt apiKey : string)
    (response : Response) :
  fetch_reply env = inr response ->
  (forall review : string,
     outcome (getGeminiReview env prompt apiKey) = inr review <->
     ok response = true /\
     exists data, response_json response = inr data /\ error data = None /\
                  first_text data = Some review /\ review <> EmptyString)
  /\ (ok response = false ->
      forall errorText, response_text response = inr errorText ->
      outcome (getGeminiReview env prompt apiKey)
      = inl (ErrorInstance ("Failed to get AI review: Gemini API request failed: "
               ++ Str.of_number (http_status response) ++ " "
               ++ statusText response ++ " - " ++ errorText)))
  /\ (ok response = true ->
      forall data err, response_json response = inr data ->
      error data = Some err ->
      outcome (getGeminiReview env prompt apiKey)
      = inl (ErrorInstance ("Failed to get AI review: Gemini API error: "
               ++ render_optional (message err))))
  /\ (ok response = true ->
      forall data, response_json response = inr data ->
      error data = None -> truthy (first_text data) = false ->
      outcome (getGeminiReview env prompt apiKey)
      = inl (ErrorInstance
               "Failed to get AI review: No review content received from Gemini API")).
Proof.
  intros Hreply.
  unfold getGeminiReview, fetch, lift, emit, throw, ret, bind, try_catch, outcome.
  rewrite Hreply.
  destruct (ok response) eqn:Hok; cbn [negb snd];
    refine (conj _ (conj _ (conj _ _))).
  - intros review; split.
    + destruct (response_json response) as [[msg|]|data]; try discriminate.
      destruct (error data) as [err|] eqn:He; [discriminate|].
      destruct (first_text data) as [[|c r]|] eqn:Ht; try discriminate.
      cbn. intros [= <-]. split; [reflexivity|].
      exists data. repeat split; auto. discriminate.
    + intros (_ & data & -> & -> & -> & Hne).
      destruct review as [|c r]; [now destruct Hne|]. reflexivity.
  - discriminate.
  - intros _ data err -> ->. reflexivity.
  - intros _ data -> -> Ht.
    destruct (first_text data) as [[|c r]|]; try reflexivity. discriminate.
  - intros review; split.
    + destruct (response_text response) as [[msg|]|errorText]; discriminate.
    + intros [H _]. discriminate.
  - intros _ errorText ->. reflexivity.
  - discriminate.
  - discriminate.
Qed.

Lemma getGeminiReview_result_witness :
  outcome (getGeminiReview
             (Sample.env Sample.files (inr (Sample.answer (Some "LGTM") None)))
             "prompt" "key")
  = inr "LGTM".
Proof.
  apply (proj1 (getGeminiReview_result
                  (Sample.env Sample.files
                              (inr (Sample.answer (Some "LGTM") None)))
                  "prompt" "key" (Sample.answer (Some "LGTM") None) eq_refl)).
  split; [reflexivity|].
  eexists. repeat split; try reflexivity. discriminate.
Defined.

(** ** The orchestrator *)

Section Orchestrator.

Lemma validateInputs_cases (env : Env) :
  exists r, validateInputs env = ([], r)
  /\ match r with
     | inl (ErrorInstance (String _ _)) => True
     | inl _ => False
     | inr _ => True
     end.
Proof.
  unfold validateInputs, throw, ret.
  destruct (input_gemini_api_key env) as [|c r];
    [destruct (env_GEMINI_API_KEY env) as [[|c r]|]|];
    try (eexists; split; [reflexivity | exact I]);
    destruct (env_GITHUB_TOKEN env) as [[|d t]|];
    eexists; split; try reflexivity; exact I.
Qed.

Lemma shouldExcludeFile_cases (f : string) (diff : option string) :
  shouldExcludeFile f diff
  = (events (shouldExcludeFile f diff),
     inr (match outcome (shouldExcludeFile f diff) with
          | inr b => b
          | inl _ => false
          end))
  /\ forall e, In e (events (shouldExcludeFile f diff)) -> is_info e = true.
Proof.
  unfold shouldExcludeFile.
  destruct (existsb _ EXCLUDED_FILE_PATTERNS).
  - split; [reflexivity | intros e []].
  - destruct diff as [[|c p]|].
    + split; [reflexivity | intros e []].
    + destruct (Str.len (String c p) >? MAX_FILE_SIZE).
      * split; [reflexivity|]. intros e [<- | []]. reflexivity.
      * split; [reflexivity | intros e []].
    + split; [reflexivity | intros e []].
Qed.

Lemma filterM_excluded (files : list FileChange) :
  filterM (fun file =>
             exclude <- shouldExcludeFile (filename file) (patch file) ;;
             ret (negb exclude)) files
  = (filter_log files, inr (filter (fun file => negb (excluded file)) files)).
Proof.
  induction files as [|file files IH]; [reflexivity|].
  cbn [filterM filter_log flat_map filter]. rewrite IH.
  pose proof (proj1 (shouldExcludeFile_cases (filename file) (patch file))) as E.
  unfold excluded, filter_log.
  destruct (shouldExcludeFile (filename file) (patch file)) as [tr [e|b]];
    [discriminate|].
  unfold bind, ret. cbn [negb]. rewrite !app_nil_r.
  destruct b; reflexivity.
Qed.

Lemma filter_log_silent (p : Event -> bool) (files : list FileChange) :
  (forall msg, p (CoreInfo msg) = false) ->
  filter p (filter_log files) = [].
Proof.
  intros Hp. unfold filter_log.
  induction files as [|file files IH]; [reflexivity|].
  cbn [flat_map]. rewrite filter_app, IH, app_nil_r.
  destruct (shouldExcludeFile_cases (filename file) (patch file)) as [_ Hinfo].
  induction (events (shouldExcludeFile (filename file) (patch file)))
    as [|e tr IHtr]; [reflexivity|].
  cbn [filter]. assert (is_info e = true) as He by (apply Hinfo; now left).
  destruct e; try discriminate. rewrite Hp. apply IHtr.
  intros e' Hin. apply Hinfo. now right.
Qed.

Lemma all_excluded (files : list FileChange) :
  (forall file, In file files -> excluded file = true) ->
  filter (fun file => negb (excluded file)) files = [].
Proof.
  intros H. induction files as [|file files IH]; [reflexivity|].
  cbn [filter]. rewrite (H file) by now left. cbn [negb].
  apply IH. intros f Hf. apply H. now right.
Qed.

Lemma review_summary_eq (files filesToReview : list FileChange) :
  review_summary files filesToReview
  = "**📊 Review Summary:**" ++ Str.nl
    ++ "- Files reviewed: " ++ Str.of_number (Z.of_nat (List.length filesToReview))
    ++ "/" ++ Str.of_number (Z.of_nat (List.length files)) ++ Str.nl
    ++ "- Total changes: " ++ Str.of_number (total_changes filesToReview)
    ++ " lines" ++ Str.nl
    ++ "- Files excluded: "
    ++ Str.of_number (Z.of_nat (List.length files)
                      - Z.of_nat (List.length filesToReview))
    ++ " (large files, lock files, etc.)" ++ Str.nl
    ++ Str.nl.
Proof.
  unfold review_summary. now rewrite reduce_changes, Z.add_0_l.
Qed.

End Orchestrator.

Ltac run_step :=
  cbn [bind emit ret reject throw try_catch listFiles createComment
       List.length Z.of_nat Z.eqb Pos.of_succ_nat].

Ltac observe :=
  cbn [events outcome fst snd filter app is_service_call is_comment is_failure];
  rewrite ?filter_app, ?filter_log_silent by reflexivity;
  cbn [events outcome fst snd filter app is_service_call is_comment is_failure].

(** C7. When the response body of the generative-text service carries an
    error field, no comment-creation call is made, in any run. In a run that
    reaches the service (valid inputs, a pull request, a list of changed files
    of which the filter keeps at least one) the service is called once and
    the whole run fails: the failure is reported once at the top level, by
    one error line and one [setFailed] with the same message, which for a
    success status is the message of the error field. *)
Theorem run_service_error (env : Env) (response : Response)
    (data : GeminiResponse) (err : GeminiError) :
  fetch_reply env = inr response ->
  response_json response = inr data ->
  error data = Some err ->
  filter is_comment (events (run env)) = [] /\
  forall (keys : string * string) (pr : PullRequest) (files : list FileChange),
    outcome (validateInputs env) = inr keys ->
    payload_pull_request env = Some pr ->
    listFiles_reply env = inr files ->
    filter (fun file => negb (excluded file)) files <> [] ->
    outcome (run env) = inr tt /\
    filter is_service_call (events (run env))
    = [Fetch (request_url (fst keys))
             (createReviewPrompt (filter (fun file => negb (excluded file)) files)
                                 (Some (title pr)) (body pr))] /\
    (exists msg,
       msg <> EmptyString /\
       filter is_failure (events (run env))
       = [CoreError ("❌ Error: " ++ msg); CoreSetFailed msg]) /\
    (ok response = true ->
     filter is_failure (events (run env))
     = [CoreError ("❌ Error: Failed to get AI review: Gemini API error: "
                   ++ render_optional (message err));
        CoreSetFailed ("Failed to get AI review: Gemini API error: "
                       ++ render_optional (message err))]).
Proof.
  intros Hreply Hjson Herr. split.
  - destruct (validateInputs_cases env) as (r & EV & Hr).
    unfold run. rewrite EV.
    destruct r as [[[|c m]|]|[geminiKey githubToken]]; try contradiction.
    { run_step. observe. reflexivity. }
    run_step.
    destruct (payload_pull_request env) as [pr|].
    2:{ run_step. observe. reflexivity. }
    run_step.
    destruct (listFiles_reply env) as [msg|files].
    { run_step. destruct msg; run_step; observe; reflexivity. }
    run_step. rewrite filterM_excluded. run_step.
    destruct (filter (fun file => negb (excluded file)) files)
      as [|file filesToReview].
    { run_step. observe. reflexivity. }
    run_step.
    destruct (getGeminiReview_error_field env
                (createReviewPrompt (file :: filesToReview) (Some (title pr)) (body pr))
                geminiKey response data err Hreply Hjson Herr)
      as (c & m & EG & _).
    rewrite EG. run_step. observe. reflexivity.
  - intros keys pr files Hkeys Hpr Hfiles Hsome.
    destruct (validateInputs_cases env) as (r & EV & _).
    rewrite EV in Hkeys. cbn in Hkeys. subst r.
    destruct keys as [geminiKey githubToken]. cbn [fst].
    unfold run. rewrite EV. run_step. rewrite Hpr. run_step.
    rewrite Hfiles. run_step. rewrite filterM_excluded. run_step.
    destruct (filter (fun file => negb (excluded file)) files)
      as [|file filesToReview]; [now destruct Hsome|].
    run_step.
    destruct (getGeminiReview_error_field env
                (createReviewPrompt (file :: filesToReview) (Some (title pr)) (body pr))
                geminiKey response data err Hreply Hjson Herr)
      as (c & m & EG & Hmsg).
    rewrite EG. run_step. observe.
    split; [reflexivity|]. split; [reflexivity|]. split.
    + exists (String c m). split; [discriminate | reflexivity].
    + intros Hok. rewrite (Hmsg Hok). reflexivity.
Qed.

Lemma run_service_error_witness :
  filter is_failure
    (events (run (Sample.env Sample.files
                    (inr (Sample.answer (Some "LGTM")
                            (Some {| message := Some "quota exceeded" |}))))))
  = [CoreError "❌ Error: Failed to get AI review: Gemini API error: quota exceeded";
     CoreSetFailed "Failed to get AI review: Gemini API error: quota exceeded"].
Proof.
  exact (proj2 (proj2 (proj2
           (proj2 (run_service_error
                     (Sample.env Sample.files
                        (inr (Sample.answer (Some "LGTM")
                                (Some {| message := Some "quota exceeded" |}))))
                     (Sample.answer (Some "LGTM")
                        (Some {| message := Some "quota exceeded" |}))
                     {| candidates :=
                          Some [ {| content := Some {| parts := Some [ {| text := Some "LGTM" |} ] |} |} ];
                        error := Some {| message := Some "quota exceeded" |} |}
                     {| message := Some "quota exceeded" |}
                     eq_refl eq_refl eq_refl)
                  ("key", "token") Sample.pr Sample.files
                  eq_refl eq_refl eq_refl
                  ltac:(vm_compute; discriminate))))
           eq_refl).
Defined.

(** C8. When the service answers with a candidate whose text is not empty,
    exactly one comment is posted, and its body is the fixed header, then the
    summary with the reviewed-over-total file counts, the summed changes of
    the reviewed files and the number of excluded files, then the returned
    text. For five changed files of which three are reviewed the summary
    reads "Files reviewed: 3/5" and "Files excluded: 2". *)
Theorem run_posts_review (env : Env) (keys : string * string)
    (pr : PullRequest) (files filesToReview : list FileChange)
    (response : Response) (data : GeminiResponse) (review : string) :
  outcome (validateInputs env) = inr keys ->
  payload_pull_request env = Some pr ->
  listFiles_reply env = inr files ->
  filter (fun file => negb (excluded file)) files = filesToReview ->
  filesToReview <> [] ->
  fetch_reply env = inr response ->
  ok response = true ->
  response_json response = inr data ->
  error data = None ->
  first_text data = Some review ->
  review <> EmptyString ->
  filter is_comment (events (run env))
  = [CreateComment (repo_owner env) (repo_repo env) (number pr)
       (("🤖 **AI Code Review**" ++ Str.nl ++ Str.nl)
        ++ ("**📊 Review Summary:**" ++ Str.nl
            ++ "- Files reviewed: "
            ++ Str.of_number (Z.of_nat (List.length filesToReview))
            ++ "/" ++ Str.of_number (Z.of_nat (List.length files)) ++ Str.nl
            ++ "- Total changes: " ++ Str.of_number (total_changes filesToReview)
            ++ " lines" ++ Str.nl
            ++ "- Files excluded: "
            ++ Str.of_number (Z.of_nat (List.length files)
                              - Z.of_nat (List.length filesToReview))
            ++ " (large files, lock files, etc.)" ++ Str.nl
            ++ Str.nl)
        ++ review)]
  /\ (List.length files = 5%nat -> List.length filesToReview = 3%nat ->
      filter is_comment (events (run env))
        = [CreateComment (repo_owner env) (repo_repo env) (number pr)
             ("🤖 **AI Code Review**" ++ Str.nl ++ Str.nl
              ++ "**📊 Review Summary:**" ++ Str.nl
              ++ "- Files reviewed: 3/5" ++ Str.nl
              ++ "- Total changes: " ++ Str.of_number (total_changes filesToReview)
              ++ " lines" ++ Str.nl
              ++ "- Files excluded: 2 (large files, lock files, etc.)" ++ Str.nl
              ++ Str.nl
              ++ review)]).
Proof.
  intros Hkeys Hpr Hfiles Hfilter Hsome Hreply Hok Hjson Herr Htext Hne.
  assert (filter is_comment (events (run env))
          = [CreateComment (repo_owner env) (repo_repo env) (number pr)
               (comment_header ++ review_summary files filesToReview ++ review)])
    as Hrun.
  { destruct (validateInputs_cases env) as (r & EV & _).
    rewrite EV in Hkeys. cbn in Hkeys. subst r.
    destruct keys as [geminiKey githubToken].
    unfold run. rewrite EV. run_step. rewrite Hpr. run_step.
    rewrite Hfiles. run_step. rewrite filterM_excluded, Hfilter. run_step.
    destruct filesToReview as [|file rest]; [now destruct Hsome|].
    run_step.
    rewrite (getGeminiReview_text env _ _ response data review) by assumption.
    run_step.
    destruct (createComment_reply env) as [[|c msg]|[]]; run_step; observe;
      reflexivity. }
  rewrite Hrun, review_summary_eq. unfold comment_header. split.
  - reflexivity.
  - intros H5 H3. rewrite H5, H3.
    do 2 f_equal. cbn -[total_changes Str.of_number String.append].
    rewrite !StrFacts.app_assoc. reflexivity.
Qed.

Lemma run_posts_review_witness :
  filter is_comment
    (events (run (Sample.env Sample.files
                    (inr (Sample.answer (Some "LGTM") None)))))
  = [CreateComment "octo" "demo" 7
       ("🤖 **AI Code Review**" ++ Str.nl ++ Str.nl
        ++ "**📊 Review Summary:**" ++ Str.nl
        ++ "- Files reviewed: 3/5" ++ Str.nl
        ++ "- Total changes: 15 lines" ++ Str.nl
        ++ "- Files excluded: 2 (large files, lock files, etc.)" ++ Str.nl
        ++ Str.nl
        ++ "LGTM")].
Proof.
  apply (proj2 (run_posts_review
                  (Sample.env Sample.files
                              (inr (Sample.answer (Some "LGTM") None)))
                  ("key", "token") Sample.pr Sample.files
                  [ Sample.change "src/index.ts" (Some "+const a = 1;") 10;
                    Sample.change "README.md" (Some "+docs") 3;
                    Sample.change "action.yml" None 2 ]
                  (Sample.answer (Some "LGTM") None)
                  {| candidates :=
                       Some [ {| content := Some {| parts := Some [ {| text := Some "LGTM" |} ] |} |} ];
                     error := None |}
                  "LGTM"
                  eq_refl eq_refl eq_refl
                  ltac:(vm_compute; reflexivity)
                  ltac:(discriminate)
                  eq_refl eq_refl eq_refl eq_refl eq_refl
                  ltac:(discriminate)));
    reflexivity.
Defined.

(** C10. When the filter excludes every changed file of the pull request,
    the run ends without failure, without a call to the generative-text
    service and without a comment-creation call. *)
Theorem run_nothing_to_review (env : Env) (keys : string * string)
    (pr : PullRequest) (files : list FileChange) :
  outcome (validateInputs env) = inr keys ->
  payload_pull_request env = Some pr ->
  listFiles_reply env = inr files ->
  (forall file, In file files -> excluded file = true) ->
  outcome (run env) = inr tt /\
  filter is_service_call (events (run env)) = [] /\
  filter is_comment (events (run env)) = [] /\
  filter is_failure (events (run env)) = [].
Proof.
  intros Hkeys Hpr Hfiles Hall. apply all_excluded in Hall.
  destruct (validateInputs_cases env) as (r & EV & _).
  rewrite EV in Hkeys. cbn in Hkeys. subst r.
  destruct keys as [geminiKey githubToken].
  unfold run. rewrite EV. run_step. rewrite Hpr. run_step.
  rewrite Hfiles. run_step. rewrite filterM_excluded, Hall. run_step.
  observe. repeat split; reflexivity.
Qed.

Lemma run_nothing_to_review_witness :
  filter is_service_call
    (events (run (Sample.env
                    [ Sample.change "package-lock.json" (Some "+lock") 400;
                      Sample.change "dist/index.js" (Some Sample.big_patch) 900 ]
                    (inr (Sample.answer (Some "LGTM") None)))))
  = [].
Proof.
  apply (run_nothing_to_review
           (Sample.env
              [ Sample.change "package-lock.json" (Some "+lock") 400;
                Sample.change "dist/index.js" (Some Sample.big_patch) 900 ]
              (inr (Sample.answer (Some "LGTM") None)))
           ("key", "token") Sample.pr
           [ Sample.change "package-lock.json" (Some "+lock") 400;
             Sample.change "dist/index.js" (Some Sample.big_patch) 900 ]
           eq_refl eq_refl eq_refl).
  intros file [<- | [<- | []]]; vm_compute; reflexivity.
Defined.

(** * Further properties *)

(** ** More on the file filter *)

Section FilterDecision.

Variable f : string.

Lemma excluded_by_name_ret (diff : option string) :
  excluded_name f -> shouldExcludeFile f diff = ret true.
Proof.
  intros H. apply excluded_name_pattern in H as (pattern & Hin & Ht).
  now apply (excluded_by_pattern pattern).
Qed.

Lemma pattern_test_excluded_name :
  existsb (fun pattern => test pattern f) EXCLUDED_FILE_PATTERNS = true
  <-> excluded_name f.
Proof.
  rewrite existsb_exists. symmetry. apply excluded_name_pattern.
Qed.

Lemma pattern_test_not_excluded_name :
  existsb (fun pattern => test pattern f) EXCLUDED_FILE_PATTERNS = false
  <-> ~ excluded_name f.
Proof.
  rewrite <- pattern_test_excluded_name.
  destruct (existsb _ EXCLUDED_FILE_PATTERNS); split.
  - discriminate.
  - intros H. now destruct H.
  - intros _ H. discriminate.
  - reflexivity.
Qed.

(** The whole behaviour of the filter on a name that no pattern matches. *)
Lemma shouldExcludeFile_other_name (diff : option string) :
  ~ excluded_name f ->
  shouldExcludeFile f diff
  = match diff with
    | Some p =>
        if Str.len p >? MAX_FILE_SIZE then
          ([CoreInfo ("Skipping large file: " ++ f ++ " ("
                      ++ Str.of_number (Str.len p) ++ " characters)")],
           inr true)
        else ([], inr false)
    | None => ([], inr false)
    end.
Proof.
  intros H. apply pattern_test_not_excluded_name in H.
  unfold shouldExcludeFile. rewrite H.
  destruct diff as [[|c p]|]; reflexivity.
Qed.

Lemma excluded_name_dec : excluded_name f \/ ~ excluded_name f.
Proof.
  destruct (existsb (fun pattern => test pattern f) EXCLUDED_FILE_PATTERNS)
    eqn:E.
  - left. now apply pattern_test_excluded_name.
  - right. now apply pattern_test_not_excluded_name.
Qed.

End FilterDecision.

Lemma excluded_false (file : FileChange) :
  excluded file = false ->
  ~ excluded_name (filename file) /\
  forall p, patch file = Some p -> Str.len p <= MAX_FILE_SIZE.
Proof.
  unfold excluded.
  destruct (excluded_name_dec (filename file)) as [Hn | Hn].
  - rewrite (excluded_by_name_ret _ _ Hn). discriminate.
  - rewrite (shouldExcludeFile_other_name _ _ Hn).
    destruct (patch file) as [p|]; cbn.
    + destruct (Str.len p >? MAX_FILE_SIZE) eqn:E; cbn; [discriminate|].
      intros _. split; [exact Hn|]. intros q [= <-].
      rewrite Z.gtb_ltb in E. now apply Z.ltb_ge in E.
    + intros _. split; [exact Hn | discriminate].
Qed.

(** X1. The filter answers [true] exactly for a name of the exclusion list or
    a patch of more than 50,000 characters, and [false] for every other file:
    a file without patch, or with a patch of at most 50,000 characters, is
    kept unless its name is on the list. *)
Theorem shouldExcludeFile_decision (f : string) (diff : option string) :
  (outcome (shouldExcludeFile f diff) = inr true <->
   excluded_name f \/ exists p, diff = Some p /\ MAX_FILE_SIZE < Str.len p)
  /\ (outcome (shouldExcludeFile f diff) = inr false <->
      ~ excluded_name f /\
      forall p, diff = Some p -> Str.len p <= MAX_FILE_SIZE).
Proof.
  destruct (excluded_name_dec f) as [Hn | Hn].
  - rewrite (excluded_by_name_ret f diff Hn). cbn. split; split.
    + intros _. now left.
    + reflexivity.
    + discriminate.
    + intros [H _]. now destruct H.
  - rewrite (shouldExcludeFile_other_name f diff Hn).
    destruct diff as [p|]; [destruct (Str.len p >? MAX_FILE_SIZE) eqn:E|];
      cbn; split; split; try reflexivity; try discriminate.
    + intros _. right. exists p. split; [reflexivity|]. now apply Z.gtb_lt.
    + intros [_ H]. apply Z.gtb_lt in E. specialize (H p eq_refl). lia.
    + intros [H | (q & [= <-] & H)]; [now destruct Hn|].
      apply Z.gtb_lt in H. congruence.
    + intros _. split; [exact Hn|]. intros q [= <-].
      rewrite Z.gtb_ltb in E. now apply Z.ltb_ge in E.
    + intros [H | (q & H & _)]; [now destruct Hn | discriminate].
    + intros _. split; [exact Hn|]. intros q H. discriminate.
Qed.

Lemma shouldExcludeFile_decision_witness :
  outcome (shouldExcludeFile "src/index.ts" (Some "+const a = 1;")) = inr false.
Proof.
  apply (proj2 (shouldExcludeFile_decision "src/index.ts" (Some "+const a = 1;"))).
  split.
  - intros H. apply pattern_test_excluded_name in H. discriminate H.
  - intros p [= <-]. vm_compute. discriminate.
Defined.

(** X2. The filter writes its log line exactly when no pattern matches the
    name and the patch has more than 50,000 characters; the line names the
    file and the length of the patch. A file that a pattern excludes is never
    logged, however long its patch. *)
Theorem shouldExcludeFile_log (f : string) (diff : option string) :
  (events (shouldExcludeFile f diff) <> [] <->
   ~ excluded_name f /\ exists p, diff = Some p /\ MAX_FILE_SIZE < Str.len p)
  /\ forall p, ~ excluded_name f -> diff = Some p -> MAX_FILE_SIZE < Str.len p ->
     events (shouldExcludeFile f diff)
     = [CoreInfo ("Skipping large file: " ++ f ++ " ("
                  ++ Str.of_number (Str.len p) ++ " characters)")].
Proof.
  destruct (excluded_name_dec f) as [Hn | Hn].
  - rewrite (excluded_by_name_ret f diff Hn). cbn. split.
    + split; [intros H; now destruct H | intros [H _]; now destruct H].
    + intros p H. now destruct H.
  - rewrite (shouldExcludeFile_other_name f diff Hn).
    destruct diff as [p|]; cbn.
    + destruct (Str.len p >? MAX_FILE_SIZE) eqn:E; cbn; split.
      * split; [|discriminate]. intros _. split; [exact Hn|].
        exists p. split; [reflexivity | now apply Z.gtb_lt].
      * intros q _ [= <-] _. reflexivity.
      * split; [intros H; now destruct H|].
        intros (_ & q & [= <-] & H). apply Z.gtb_lt in H. congruence.
      * intros q _ [= <-] H. apply Z.gtb_lt in H. congruence.
    + split.
      * split; [intros H; now destruct H | intros (_ & q & H & _); discriminate].
      * intros q _ H. discriminate.
Qed.

Lemma shouldExcludeFile_log_witness :
  events (shouldExcludeFile "dist/index.js" (Some Sample.big_patch))
  = [CoreInfo "Skipping large file: dist/index.js (50001 characters)"].
Proof.
  apply (proj2 (shouldExcludeFile_log "dist/index.js" (Some Sample.big_patch))
               Sample.big_patch).
  - intros H. apply pattern_test_excluded_name in H. discriminate H.
  - reflexivity.
  - vm_compute. reflexivity.
Defined.

(** X3. The exclusion by name does not depend on the directory: a name of the
    exclusion list stays excluded under any path put in front of it. *)
Theorem shouldExcludeFile_any_directory (dir f : string) (diff : option string) :
  excluded_name f -> shouldExcludeFile (dir ++ f) diff = ret true.
Proof.
  intros H. apply excluded_by_name_ret.
  assert (forall suffix, Str.ends_with suffix f -> Str.ends_with suffix (dir ++ f))
    as He.
  { intros suffix (pre & ->). exists (dir ++ pre).
    now rewrite StrFacts.app_assoc. }
  assert (forall sub, Str.contains sub f -> Str.contains sub (dir ++ f)) as Hc.
  { intros sub (pre & post & ->). exists (dir ++ pre), post.
    now rewrite StrFacts.app_assoc. }
  unfold excluded_name in *.
  repeat (destruct H as [H | H]; [auto 20 |]); auto 20.
Qed.

Lemma shouldExcludeFile_any_directory_witness :
  shouldExcludeFile ("packages/web/" ++ "yarn.lock") None = ret true.
Proof.
  apply shouldExcludeFile_any_directory.
  unfold excluded_name. left. exists "yarn". reflexivity.
Defined.

(** X4. Every file that the filter of [run] keeps is one of the changed
    files, has a name outside the exclusion list and, when it has a patch, a
    patch of at most 50,000 characters. *)
Theorem kept_files_invariant (files : list FileChange) (file : FileChange) :
  In file (filter (fun file => negb (excluded file)) files) ->
  In file files /\
  ~ excluded_name (filename file) /\
  forall p, patch file = Some p -> Str.len p <= MAX_FILE_SIZE.
Proof.
  intros H. apply filter_In in H as [Hin Hk]. split; [exact Hin|].
  apply excluded_false. now apply negb_true_iff in Hk.
Qed.

Lemma kept_files_invariant_witness :
  In (Sample.change "README.md" (Some "+docs") 3) Sample.files /\
  ~ excluded_name "README.md" /\
  forall p, Some "+docs" = Some p -> Str.len p <= MAX_FILE_SIZE.
Proof.
  apply (kept_files_invariant Sample.files
           (Sample.change "README.md" (Some "+docs") 3)).
  vm_compute. right. left. reflexivity.
Defined.

(** ** More on the prompt builder *)

Section PromptBlocks.

Lemma with_index_nth {A} (l : list A) (n : nat) (x : A) (base : Z) :
  nth_error l n = Some x -> In (base + Z.of_nat n, x) (with_index l base).
Proof.
  revert n base. induction l as [|y l IH]; intros n base.
  - destruct n; discriminate.
  - destruct n as [|n]; cbn [nth_error with_index].
    + intros [= ->]. left. f_equal. cbn. lia.
    + intros H. right.
      replace (base + Z.of_nat (S n)) with (base + 1 + Z.of_nat n) by lia.
      now apply IH.
Qed.

Lemma with_index_In {A} (l : list A) (i : Z) (x : A) (base : Z) :
  In (i, x) (with_index l base) -> In x l.
Proof.
  revert base. induction l as [|y l IH]; intros base; cbn [with_index].
  - intros [].
  - intros [[= _ ->] | H]; [now left | right; eauto].
Qed.

Lemma contains_join (s : string) (l : list string) :
  In s l -> Str.contains s (Str.join l).
Proof.
  induction l as [|x l IH]; [intros []|].
  intros [-> | H].
  - exists EmptyString, (Str.join l). reflexivity.
  - destruct (IH H) as (pre & post & E). exists (x ++ pre), post.
    cbn [Str.join fold_right]. fold (Str.join l). rewrite E.
    now rewrite StrFacts.app_assoc.
Qed.

Lemma contains_middle (s a mid c : string) :
  Str.contains s mid -> Str.contains s (a ++ mid ++ c).
Proof.
  intros (pre & post & ->). exists (a ++ pre), (post ++ c).
  now rewrite !StrFacts.app_assoc.
Qed.

Lemma contains_skip (s a rest : string) :
  Str.contains s rest -> Str.contains s (a ++ rest).
Proof.
  intros (pre & post & ->). exists (a ++ pre), post.
  now rewrite StrFacts.app_assoc.
Qed.

Lemma contains_intro (s : string) (prTitle prBody : option string)
    (files : list FileChange) :
  Str.contains s (context_intro prTitle prBody) ->
  Str.contains s (createReviewPrompt files prTitle prBody).
Proof.
  intros (pre & post & E). rewrite createReviewPrompt_shape.
  unfold prompt_context. rewrite E. exists pre. eexists.
  rewrite !StrFacts.app_assoc. reflexivity.
Qed.

End PromptBlocks.

(** X5. The block of a file carries the position of the file in the list
    given to the builder, counted from 1 over all the files, those without a
    patch included: the file at index [n] with a patch that is not empty has
    its block, numbered [n + 1], in the prompt. *)
Theorem createReviewPrompt_block_number (files : list FileChange)
    (prTitle prBody : option string) (n : nat) (file : FileChange) (diff : string) :
  nth_error files n = Some file ->
  patch file = Some diff ->
  diff <> EmptyString ->
  Str.contains
    ("**File " ++ Str.of_number (Z.of_nat n + 1) ++ ": " ++ filename file ++ "** ("
     ++ status file ++ ", +" ++ Str.of_number (additions file) ++ "/-"
     ++ Str.of_number (deletions file) ++ ")" ++ Str.nl
     ++ "```diff" ++ Str.nl ++ diff ++ Str.nl ++ "```" ++ Str.nl ++ Str.nl)
    (createReviewPrompt files prTitle prBody).
Proof.
  intros Hn Hp Hd. rewrite createReviewPrompt_shape.
  apply contains_middle, contains_join. unfold per_file_blocks.
  apply in_map_iff. exists (Z.of_nat n, file). split.
  - cbn [fst snd]. rewrite Hp.
    destruct diff as [|c d]; [now destruct Hd | reflexivity].
  - apply filter_In. split.
    + apply (with_index_nth files n file 0 Hn).
    + cbn [snd]. rewrite Hp. destruct diff; [now destruct Hd | reflexivity].
Qed.

Lemma createReviewPrompt_block_number_witness :
  Str.contains
    ("**File 3: README.md** (modified, +3/-0)" ++ Str.nl
     ++ "```diff" ++ Str.nl ++ "+docs" ++ Str.nl ++ "```" ++ Str.nl ++ Str.nl)
    (createReviewPrompt Sample.files None None).
Proof.
  apply (createReviewPrompt_block_number Sample.files None None 2
           (Sample.change "README.md" (Some "+docs") 3) "+docs").
  - reflexivity.
  - reflexivity.
  - discriminate.
Defined.

(** X6. When no file has a patch that is present and not empty (the empty
    list included), the prompt is the opening text followed at once by the
    closing text; the counts of its context still cover all the files. *)
Theorem createReviewPrompt_no_diff (files : list FileChange)
    (prTitle prBody : option string) :
  (forall file, In file files -> truthy (patch file) = false) ->
  createReviewPrompt files prTitle prBody
  = prompt_context prTitle prBody (Z.of_nat (List.length files))
                   (total_changes files)
    ++ prompt_closing.
Proof.
  intros H. rewrite createReviewPrompt_shape. unfold per_file_blocks.
  assert (filter (fun entry : Z * FileChange => truthy (patch (snd entry)))
                 (with_index files 0) = []) as ->.
  { generalize 0. induction files as [|file files IH]; intros base;
      [reflexivity|].
    cbn [with_index filter snd]. rewrite (H file) by now left.
    apply IH. intros f Hf. apply H. now right. }
  reflexivity.
Qed.

Lemma createReviewPrompt_no_diff_witness :
  createReviewPrompt [Sample.change "logo.png" None 0] None None
  = prompt_context None None 1 0 ++ prompt_closing.
Proof.
  apply (createReviewPrompt_no_diff [Sample.change "logo.png" None 0]).
  intros file [<- | []]. reflexivity.
Defined.

(** X7. The context of the prompt shows the title and the description of the
    pull request when they are present and not empty, and the fixed texts
    "No title provided" and "No description provided" otherwise. *)
Theorem createReviewPrompt_title_description (files : list FileChange)
    (prTitle prBody : option string) :
  (truthy prTitle = false ->
   Str.contains ("- Title: No title provided" ++ Str.nl)
                (createReviewPrompt files prTitle prBody)) /\
  (forall t, prTitle = Some t -> t <> EmptyString ->
   Str.contains ("- Title: " ++ t ++ Str.nl)
                (createReviewPrompt files prTitle prBody)) /\
  (truthy prBody = false ->
   Str.contains ("- Description: No description provided" ++ Str.nl)
                (createReviewPrompt files prTitle prBody)) /\
  (forall d, prBody = Some d -> d <> EmptyString ->
   Str.contains ("- Description: " ++ d ++ Str.nl)
                (createReviewPrompt files prTitle prBody)).
Proof.
  assert (Str.contains ("- Title: " ++ or_default prTitle "No title provided"
                        ++ Str.nl)
                       (createReviewPrompt files prTitle prBody)) as Ht.
  { apply contains_intro. unfold context_intro. do 5 apply contains_skip.
    exists EmptyString,
      ("- Description: " ++ or_default prBody "No description provided" ++ Str.nl).
    now rewrite !StrFacts.app_assoc. }
  assert (Str.contains ("- Description: "
                        ++ or_default prBody "No description provided" ++ Str.nl)
                       (createReviewPrompt files prTitle prBody)) as Hb.
  { apply contains_intro. unfold context_intro. do 8 apply contains_skip.
    exists EmptyString, EmptyString.
    now rewrite !StrFacts.app_assoc, StrFacts.app_nil_r. }
  repeat split.
  - intros H. destruct prTitle as [[|c t]|]; try discriminate; exact Ht.
  - intros t -> H. destruct t; [now destruct H | exact Ht].
  - intros H. destruct prBody as [[|c t]|]; try discriminate; exact Hb.
  - intros d -> H. destruct d; [now destruct H | exact Hb].
Qed.

Lemma createReviewPrompt_title_description_witness :
  Str.contains ("- Description: No description provided" ++ Str.nl)
               (createReviewPrompt Sample.files (Some "Add file filter")
                                   (Some EmptyString)).
Proof.
  apply (proj1 (proj2 (proj2 (createReviewPrompt_title_description Sample.files
           (Some "Add file filter") (Some EmptyString))))).
  reflexivity.
Defined.

(** ** More on the model client *)

(** X8. Whatever the service answers, the client makes exactly one request,
    to the endpoint with the key, carrying the prompt. It never returns an
    empty text, and what it throws is always an [Error] whose message is
    "Unknown error occurred while getting AI review" or starts with
    "Failed to get AI review: ". *)
Theorem getGeminiReview_one_request (env : Env) (prompt apiKey : string) :
  events (getGeminiReview env prompt apiKey) = [Fetch (request_url apiKey) prompt]
  /\ outcome (getGeminiReview env prompt apiKey) <> inr EmptyString
  /\ forall e, outcome (getGeminiReview env prompt apiKey) = inl e ->
       e = ErrorInstance "Unknown error occurred while getting AI review" \/
       exists cause, e = ErrorInstance ("Failed to get AI review: " ++ cause).
Proof.
  unfold getGeminiReview, fetch, lift, emit, throw, ret, bind, try_catch,
    events, outcome.
  destruct (fetch_reply env) as [[msg|]|response]; cbn [fst snd app].
  - repeat split; [discriminate|]. intros e [= <-]. right. now exists msg.
  - repeat split; [discriminate|]. intros e [= <-]. now left.
  - destruct (ok response); cbn [negb].
    + destruct (response_json response) as [[msg|]|data]; cbn [fst snd app].
      * repeat split; [discriminate|]. intros e [= <-]. right. now exists msg.
      * repeat split; [discriminate|]. intros e [= <-]. now left.
      * destruct (error data) as [err|]; cbn [fst snd app].
        -- repeat split; [discriminate|]. intros e [= <-]. right. eexists.
           reflexivity.
        -- destruct (first_text data) as [[|c r]|]; cbn [fst snd app];
             (repeat split; [discriminate|]); intros e; try discriminate;
             intros [= <-]; right; eexists; reflexivity.
    + destruct (response_text response) as [[msg|]|errorText]; cbn [fst snd app];
        (repeat split; [discriminate|]); intros e [= <-];
        try (now left); right; eexists; reflexivity.
Qed.

Lemma getGeminiReview_one_request_witness :
  events (getGeminiReview
            (Scenario.env_with "key" (Some "token") None (inr [])
                               (inl NonError) (inr tt))
            "prompt" "key")
  = [Fetch (request_url "key") "prompt"].
Proof.
  exact (proj1 (getGeminiReview_one_request
                  (Scenario.env_with "key" (Some "token") None (inr [])
                                     (inl NonError) (inr tt))
                  "prompt" "key")).
Defined.

(** X9. A failure of the transport or of the decoding of the body is
    reported under the client's prefix: an [Error] thrown by [fetch], or by
    the parsing of a success response, comes out as "Failed to get AI
    review: " followed by its message; a thrown value that is not an [Error]
    comes out as the fixed unknown-error message. *)
Theorem getGeminiReview_transport_failure (env : Env) (prompt apiKey : string) :
  (forall msg, fetch_reply env = inl (ErrorInstance msg) ->
   outcome (getGeminiReview env prompt apiKey)
   = inl (ErrorInstance ("Failed to get AI review: " ++ msg))) /\
  (fetch_reply env = inl NonError ->
   outcome (getGeminiReview env prompt apiKey)
   = inl (ErrorInstance "Unknown error occurred while getting AI review")) /\
  (forall response msg, fetch_reply env = inr response -> ok response = true ->
   response_json response = inl (ErrorInstance msg) ->
   outcome (getGeminiReview env prompt apiKey)
   = inl (ErrorInstance ("Failed to get AI review: " ++ msg))).
Proof.
  unfold getGeminiReview, fetch, lift, emit, throw, ret, bind, try_catch, outcome.
  repeat split.
  - intros msg ->. reflexivity.
  - intros ->. reflexivity.
  - intros response msg -> -> ->. reflexivity.
Qed.

Lemma getGeminiReview_transport_failure_witness :
  outcome (getGeminiReview
             (Sample.env [] (inl (ErrorInstance "socket hang up")))
             "prompt" "key")
  = inl (ErrorInstance "Failed to get AI review: socket hang up").
Proof.
  apply (proj1 (getGeminiReview_transport_failure
                  (Sample.env [] (inl (ErrorInstance "socket hang up")))
                  "prompt" "key")).
  reflexivity.
Defined.

(** X10. Only the first part of the first candidate is read: when a success
    response without error field has a first candidate with a first part, the
    result is the text of that part if it is not empty and the empty-response
    failure otherwise, whatever the other parts and candidates hold. *)
Theorem getGeminiReview_first_part_only (env : Env) (prompt apiKey : string)
    (response : Response) (data : GeminiResponse)
    (candidate : Candidate) (others : list Candidate)
    (c : Content) (part : Part) (more : list Part) :
  fetch_reply env = inr response ->
  ok response = true ->
  response_json response = inr data ->
  error data = None ->
  candidates data = Some (candidate :: others) ->
  content candidate = Some c ->
  parts c = Some (part :: more) ->
  outcome (getGeminiReview env prompt apiKey)
  = match text part with
    | Some (String a s) => inr (String a s)
    | _ => inl (ErrorInstance
                  "Failed to get AI review: No review content received from Gemini API")
    end.
Proof.
  intros Hreply Hok Hjson Herr Hc Hct Hp.
  unfold getGeminiReview, fetch, lift, emit, throw, ret, bind, try_catch, outcome.
  rewrite Hreply, Hok, Hjson. cbn [negb]. rewrite Herr.
  unfold first_text. rewrite Hc, Hct, Hp.
  destruct (text part) as [[|a s]|]; reflexivity.
Qed.

Lemma getGeminiReview_first_part_only_witness :
  outcome (getGeminiReview
             (Sample.env []
                (inr {| ok := true; http_status := 200; statusText := "OK";
                        response_text := inr EmptyString;
                        response_json :=
                          inr {| candidates :=
                                   Some [ {| content := Some {| parts := Some [ {| text := None |}; {| text := Some "second part" |} ] |} |};
                                          {| content := Some {| parts := Some [ {| text := Some "second candidate" |} ] |} |} ];
                                 error := None |} |}))
             "prompt" "key")
  = inl (ErrorInstance
           "Failed to get AI review: No review content received from Gemini API").
Proof.
  pose (first := {| text := None |}).
  pose (c := {| parts := Some [ first; {| text := Some "second part" |} ] |}).
  pose (candidate := {| content := Some c |}).
  pose (others :=
          [ {| content := Some {| parts := Some [ {| text := Some "second candidate" |} ] |} |} ]).
  pose (data := {| candidates := Some (candidate :: others); error := None |}).
  pose (response := {| ok := true; http_status := 200; statusText := "OK";
                       response_text := inr EmptyString;
                       response_json := inr data |}).
  exact (getGeminiReview_first_part_only (Sample.env [] (inr response))
           "prompt" "key" response data candidate others c first
           [ {| text := Some "second part" |} ]
           eq_refl eq_refl eq_refl eq_refl eq_refl eq_refl eq_refl).
Defined.

(** ** More on the orchestrator *)

Ltac observe_calls :=
  cbn [events outcome fst snd filter app
       is_service_call is_comment is_failure is_external];
  rewrite ?filter_app, ?filter_log_silent by reflexivity;
  cbn [events outcome fst snd filter app
       is_service_call is_comment is_failure is_external].

(** Every path through [run], each left with the trace it produces. *)
Ltac run_paths env :=
  let r := fresh "r" in
  let EV := fresh "EV" in
  let Hr := fresh "Hr" in
  destruct (validateInputs_cases env) as (r & EV & Hr);
  unfold run; rewrite EV;
  destruct r as [[[|? ?]|]|[? ?]]; try contradiction; run_step;
  [ | destruct (payload_pull_request env) as [?|] eqn:?; run_step;
      [ destruct (listFiles_reply env) as [[|? ?]|?] eqn:?; run_step;
        [ | | rewrite filterM_excluded; run_step;
              match goal with
              | |- context [filter (fun file => negb (excluded file)) ?l] =>
                  destruct (filter (fun file => negb (excluded file)) l)
                    as [|? ?] eqn:?
              end; run_step;
              [ | match goal with
                  | |- context [getGeminiReview ?e ?p ?k] =>
                      let g := fresh "g" in
                      let EG := fresh "EG" in
                      let Hg := fresh "Hg" in
                      destruct (getGeminiReview_cases e p k) as (g & EG & Hg);
                      rewrite EG;
                      destruct g as [[[|? ?]|]|[|? ?]]; try contradiction;
                      run_step;
                      [ | destruct (createComment_reply env) as [[|? ?]|[]] eqn:?;
                          run_step ]
                  end ] ]
      | ] ].

(** X12. The calls that leave the process come in one order and at most
    once each: the list of changed files, then the request to the service,
    then the comment. No comment is created without a request to the service
    before it, and no request without the list of files before it. *)
Theorem run_external_calls (env : Env) :
  filter is_external (events (run env)) = [] \/
  exists pr keys,
    payload_pull_request env = Some pr /\
    outcome (validateInputs env) = inr keys /\
    let list_call := ListFiles (repo_owner env) (repo_repo env) (number pr) in
    filter is_external (events (run env)) = [list_call] \/
    exists files,
      listFiles_reply env = inr files /\
      let request :=
        Fetch (request_url (fst keys))
              (createReviewPrompt (filter (fun file => negb (excluded file)) files)
                                  (Some (title pr)) (body pr)) in
      filter is_external (events (run env)) = [list_call; request] \/
      exists body,
        filter is_external (events (run env))
        = [list_call; request;
           CreateComment (repo_owner env) (repo_repo env) (number pr) body].
Proof.
  run_paths env; observe_calls; try (left; reflexivity); right;
    match goal with
    | H : payload_pull_request env = Some ?pr |- _ =>
        match goal with
        | E : validateInputs env = (_, inr ?k) |- _ =>
            exists pr, k
        end
    end;
    (split; [reflexivity|]; split; [reflexivity|]); cbn zeta;
    try (left; reflexivity); right;
    match goal with
    | H : filter _ ?l = _ |- _ =>
        exists l; split; [reflexivity|]; rewrite H
    end;
    cbn [fst]; first [left; reflexivity | right; eexists; reflexivity].
Qed.

(** X13. A run reports a failure in one of two ways, and at most once: the
    single [setFailed] of a run outside a pull request, or one error line
    followed by one [setFailed] with the same message, which is never
    empty. *)
Theorem run_failure_report (env : Env) :
  filter is_failure (events (run env)) = [] \/
  filter is_failure (events (run env))
  = [CoreSetFailed "This action only runs on pull_request events."] \/
  exists msg,
    msg <> EmptyString /\
    filter is_failure (events (run env))
    = [CoreError ("❌ Error: " ++ msg); CoreSetFailed msg].
Proof.
  run_paths env; observe_calls;
    first [ left; reflexivity
          | right; left; reflexivity
          | right; right; eexists; split; [|reflexivity]; discriminate ].
Qed.

(** X14. [validateInputs]: the key given as input is preferred to the one of
    the process environment; a missing key is reported first, whatever the
    token is; with a key, a missing or empty token is reported; with both,
    they are returned and nothing is logged. *)
Theorem validateInputs_result (env : Env) :
  (input_gemini_api_key env = EmptyString ->
   truthy (env_GEMINI_API_KEY env) = false ->
   validateInputs env
   = throw (ErrorInstance "Gemini API key is missing. Please provide it via 'gemini_api_key' input or 'GEMINI_API_KEY' environment variable.")) /\
  (forall key,
     key <> EmptyString ->
     input_gemini_api_key env = key \/
     (input_gemini_api_key env = EmptyString /\ env_GEMINI_API_KEY env = Some key) ->
     (truthy (env_GITHUB_TOKEN env) = false ->
      validateInputs env
      = throw (ErrorInstance "GitHub token is missing. This should be automatically provided by GitHub Actions.")) /\
     (forall token, env_GITHUB_TOKEN env = Some token -> token <> EmptyString ->
      validateInputs env = ret (key, token))).
Proof.
  unfold validateInputs. split.
  - intros -> H. destruct (env_GEMINI_API_KEY env) as [[|c k]|];
      try reflexivity; discriminate.
  - intros key Hk Hkey.
    assert (match input_gemini_api_key env with
            | String c r => Some (String c r)
            | EmptyString => env_GEMINI_API_KEY env
            end = Some key) as ->.
    { destruct Hkey as [<- | [-> ->]]; [|reflexivity].
      destruct (input_gemini_api_key env); [now destruct Hk | reflexivity]. }
    destruct key as [|c k]; [now destruct Hk|]. split.
    + intros H. destruct (env_GITHUB_TOKEN env) as [[|d t]|];
        try reflexivity; discriminate.
    + intros token -> Ht. destruct token; [now destruct Ht | reflexivity].
Qed.

Lemma validateInputs_result_witness :
  validateInputs
    (Scenario.env_with "from-input" (Some "token") None
                       (inr []) (inl NonError) (inr tt))
  = ret ("from-input", "token").
Proof.
  apply (proj2 (validateInputs_result
                  (Scenario.env_with "from-input" (Some "token") None
                                     (inr []) (inl NonError) (inr tt)))
               "from-input").
  - discriminate.
  - left. reflexivity.
  - reflexivity.
  - discriminate.
Defined.

(** X15. When a credential is missing, the run stops before any call leaves
    the process: its whole trace is the start line, one error line and one
    [setFailed] with the message of [validateInputs]. *)
Theorem run_invalid_inputs (env : Env) (e : Thrown) :
  outcome (validateInputs env) = inl e ->
  exists msg,
    e = ErrorInstance msg /\
    events (run env)
    = [CoreInfo "🤖 Starting AI Code Review Bot...";
       CoreError ("❌ Error: " ++ msg);
       CoreSetFailed msg].
Proof.
  intros He. destruct (validateInputs_cases env) as (r & EV & Hr).
  rewrite EV in He. cbn in He. subst r.
  destruct e as [[|c m]|]; try contradiction.
  exists (String c m). split; [reflexivity|].
  unfold run. rewrite EV. run_step. reflexivity.
Qed.

Lemma run_invalid_inputs_witness :
  exists msg,
    ErrorInstance "GitHub token is missing. This should be automatically provided by GitHub Actions."
    = ErrorInstance msg /\
    events (run (Scenario.env_with "key" None (Some Sample.pr)
                                    (inr []) (inl NonError) (inr tt)))
    = [CoreInfo "🤖 Starting AI Code Review Bot...";
       CoreError ("❌ Error: " ++ msg);
       CoreSetFailed msg].
Proof.
  exact (run_invalid_inputs
           (Scenario.env_with "key" None (Some Sample.pr)
                              (inr []) (inl NonError) (inr tt))
           _ eq_refl).
Defined.

(** X16. Outside a pull request the run stops after the validation of the
    inputs: it calls [setFailed] once with the fixed message, writes no error
    line and makes no external call. *)
Theorem run_not_pull_request (env : Env) (keys : string * string) :
  outcome (validateInputs env) = inr keys ->
  payload_pull_request env = None ->
  events (run env)
  = [CoreInfo "🤖 Starting AI Code Review Bot...";
     CoreInfo "✅ Input validation passed";
     CoreSetFailed "This action only runs on pull_request events."].
Proof.
  intros Hkeys Hpr. destruct (validateInputs_cases env) as (r & EV & _).
  rewrite EV in Hkeys. cbn in Hkeys. subst r. destruct keys as [k t].
  unfold run. rewrite EV. run_step. rewrite Hpr. run_step. reflexivity.
Qed.

Lemma run_not_pull_request_witness :
  events (run (Scenario.env_with "key" (Some "token") None
                                  (inr []) (inl NonError) (inr tt)))
  = [CoreInfo "🤖 Starting AI Code Review Bot...";
     CoreInfo "✅ Input validation passed";
     CoreSetFailed "This action only runs on pull_request events."].
Proof.
  exact (run_not_pull_request
           (Scenario.env_with "key" (Some "token") None
                              (inr []) (inl NonError) (inr tt))
           ("key", "token") eq_refl eq_refl).
Defined.

(** X17. When the list of changed files cannot be fetched, the run fails
    with the message of that error, or with "Unknown error occurred" when the
    message is empty; the filter, the service and the comment are not
    reached. *)
Theorem run_listFiles_rejected (env : Env) (keys : string * string)
    (pr : PullRequest) (msg : string) :
  outcome (validateInputs env) = inr keys ->
  payload_pull_request env = Some pr ->
  listFiles_reply env = inl msg ->
  events (run env)
  = [CoreInfo "🤖 Starting AI Code Review Bot...";
     CoreInfo "✅ Input validation passed";
     CoreInfo ("📋 Reviewing PR #" ++ Str.of_number (number pr) ++ ": "
               ++ Str.dquote ++ title pr ++ Str.dquote);
     CoreInfo "📁 Fetching changed files...";
     ListFiles (repo_owner env) (repo_repo env) (number pr);
     CoreError ("❌ Error: " ++ or_default (Some msg) "Unknown error occurred");
     CoreSetFailed (or_default (Some msg) "Unknown error occurred")].
Proof.
  intros Hkeys Hpr Hfiles. destruct (validateInputs_cases env) as (r & EV & _).
  rewrite EV in Hkeys. cbn in Hkeys. subst r. destruct keys as [k t].
  unfold run. rewrite EV. run_step. rewrite Hpr. run_step.
  rewrite Hfiles. run_step. destruct msg; reflexivity.
Qed.

Lemma run_listFiles_rejected_witness :
  events (run (Scenario.env_with "key" (Some "token") (Some Sample.pr)
                                  (inl "Not Found") (inl NonError) (inr tt)))
  = [CoreInfo "🤖 Starting AI Code Review Bot...";
     CoreInfo "✅ Input validation passed";
     CoreInfo ("📋 Reviewing PR #7: " ++ Str.dquote ++ "Add file filter" ++ Str.dquote);
     CoreInfo "📁 Fetching changed files...";
     ListFiles "octo" "demo" 7;
     CoreError "❌ Error: Not Found";
     CoreSetFailed "Not Found"].
Proof.
  exact (run_listFiles_rejected
           (Scenario.env_with "key" (Some "token") (Some Sample.pr)
                              (inl "Not Found") (inl NonError) (inr tt))
           ("key", "token") Sample.pr "Not Found" eq_refl eq_refl eq_refl).
Defined.

Section Trace.

Lemma filter_log_lines (files : list FileChange) (e : Event) :
  In e (filter_log files) ->
  exists rest, e = CoreInfo ("Skipping large file: " ++ rest).
Proof.
  unfold filter_log. rewrite in_flat_map. intros (file & _ & H).
  unfold shouldExcludeFile in H.
  destruct (existsb _ EXCLUDED_FILE_PATTERNS); [destruct H|].
  destruct (patch file) as [[|c p]|]; try destruct H.
  destruct (Str.len (String c p) >? MAX_FILE_SIZE); cbn in H.
  - destruct H as [<- | []]. eexists. reflexivity.
  - destruct H.
Qed.

Lemma filter_log_no_success (files : list FileChange) :
  ~ In (CoreInfo "✅ Review posted successfully!") (filter_log files).
Proof.
  intros H. apply filter_log_lines in H as (rest & H). discriminate H.
Qed.

Lemma excluded_partition (files : list FileChange) :
  Z.of_nat (List.length files)
  - Z.of_nat (List.length (filter (fun file => negb (excluded file)) files))
  = Z.of_nat (List.length (filter excluded files)).
Proof.
  induction files as [|file files IH]; [reflexivity|].
  cbn [filter List.length]. destruct (excluded file); cbn [negb List.length]; lia.
Qed.

End Trace.

(** Refutes a hypothesis that the success line is in a trace without it. *)
Ltac no_such_line H :=
  repeat match type of H with
         | In _ (_ ++ _) => apply in_app_iff in H
         | _ \/ _ => destruct H as [H | H]
         | In _ (_ :: _) => cbn [In] in H
         | In _ [] => destruct H
         | False => destruct H
         | In _ (filter_log _) => now apply filter_log_no_success in H
         | _ = _ => discriminate H
         end.

(** X18. With valid inputs, a pull request and at least one file kept by the
    filter, the service is called exactly once, whatever it answers: the
    request goes to the endpoint with the configured key and carries the
    prompt built from the kept files, the title and the body of the pull
    request. *)
Theorem run_service_request (env : Env) (keys : string * string)
    (pr : PullRequest) (files : list FileChange) :
  outcome (validateInputs env) = inr keys ->
  payload_pull_request env = Some pr ->
  listFiles_reply env = inr files ->
  filter (fun file => negb (excluded file)) files <> [] ->
  filter is_service_call (events (run env))
  = [Fetch (request_url (fst keys))
           (createReviewPrompt (filter (fun file => negb (excluded file)) files)
                               (Some (title pr)) (body pr))].
Proof.
  intros Hkeys Hpr Hfiles Hsome.
  destruct (validateInputs_cases env) as (r & EV & _).
  rewrite EV in Hkeys. cbn in Hkeys. subst r. destruct keys as [k t].
  unfold run. rewrite EV. run_step. rewrite Hpr. run_step.
  rewrite Hfiles. run_step. rewrite filterM_excluded. run_step.
  destruct (filter (fun file => negb (excluded file)) files) as [|file kept];
    [now destruct Hsome|].
  run_step.
  destruct (getGeminiReview_cases env
              (createReviewPrompt (file :: kept) (Some (title pr)) (body pr)) k)
    as (g & EG & Hg).
  rewrite EG. destruct g as [[[|c m]|]|[|c review]]; try contradiction; run_step.
  - observe_calls. reflexivity.
  - destruct (createComment_reply env) as [[|d msg]|[]]; run_step;
      observe_calls; reflexivity.
Qed.

Lemma run_service_request_witness :
  filter is_service_call
    (events (run (Scenario.env_with "key" (Some "token") (Some Sample.pr)
                    (inr Scenario.small_files) (inl NonError) (inr tt))))
  = [Fetch (request_url "key")
           (createReviewPrompt
              [ Sample.change "src/index.ts" (Some "+const a = 1;") 10;
                Sample.change "logo.png" None 0 ]
              (Some "Add file filter") None)].
Proof.
  exact (run_service_request
           (Scenario.env_with "key" (Some "token") (Some Sample.pr)
              (inr Scenario.small_files) (inl NonError) (inr tt))
           ("key", "token") Sample.pr Scenario.small_files
           eq_refl eq_refl eq_refl
           ltac:(vm_compute; discriminate)).
Defined.

(** X19. When the comment cannot be created, the run fails after the call:
    the comment call was made once, the failure is reported with the message
    of that error (or "Unknown error occurred" for an empty message), and the
    success line is not written. *)
Theorem run_createComment_rejected (env : Env) (keys : string * string)
    (pr : PullRequest) (files : list FileChange) (review msg : string) :
  outcome (validateInputs env) = inr keys ->
  payload_pull_request env = Some pr ->
  listFiles_reply env = inr files ->
  filter (fun file => negb (excluded file)) files <> [] ->
  outcome (getGeminiReview env
             (createReviewPrompt (filter (fun file => negb (excluded file)) files)
                                 (Some (title pr)) (body pr))
             (fst keys)) = inr review ->
  createComment_reply env = inl msg ->
  filter is_comment (events (run env))
  = [CreateComment (repo_owner env) (repo_repo env) (number pr)
       (comment_header
        ++ review_summary files (filter (fun file => negb (excluded file)) files)
        ++ review)] /\
  filter is_failure (events (run env))
  = [CoreError ("❌ Error: " ++ or_default (Some msg) "Unknown error occurred");
     CoreSetFailed (or_default (Some msg) "Unknown error occurred")] /\
  ~ In (CoreInfo "✅ Review posted successfully!") (events (run env)).
Proof.
  intros Hkeys Hpr Hfiles Hsome Hreview Hcomment.
  destruct (validateInputs_cases env) as (r & EV & _).
  rewrite EV in Hkeys. cbn in Hkeys. subst r. destruct keys as [k t].
  cbn [fst] in Hreview.
  unfold run. rewrite EV. run_step. rewrite Hpr. run_step.
  rewrite Hfiles. run_step. rewrite filterM_excluded. run_step.
  destruct (filter (fun file => negb (excluded file)) files) as [|file kept];
    [now destruct Hsome|].
  run_step.
  destruct (getGeminiReview_cases env
              (createReviewPrompt (file :: kept) (Some (title pr)) (body pr)) k)
    as (g & EG & _).
  rewrite EG in Hreview. cbn in Hreview. subst g. rewrite EG. run_step.
  rewrite Hcomment. run_step.
  destruct msg as [|c m]; run_step; (split; [|split]);
    try (observe_calls; reflexivity);
    cbn [events fst app]; intros H; no_such_line H.
Qed.

Lemma run_createComment_rejected_witness :
  ~ In (CoreInfo "✅ Review posted successfully!")
       (events (run (Scenario.env_with "key" (Some "token") (Some Sample.pr)
                       (inr Scenario.small_files)
                       (inr (Sample.answer (Some "LGTM") None))
                       (inl "Resource not accessible by integration")))).
Proof.
  exact (proj2 (proj2 (run_createComment_rejected
           (Scenario.env_with "key" (Some "token") (Some Sample.pr)
              (inr Scenario.small_files)
              (inr (Sample.answer (Some "LGTM") None))
              (inl "Resource not accessible by integration"))
           ("key", "token") Sample.pr Scenario.small_files "LGTM"
           "Resource not accessible by integration"
           eq_refl eq_refl eq_refl
           ltac:(vm_compute; discriminate)
           eq_refl eq_refl))).
Defined.



(** X21. The number of excluded files shown in the summary of the comment is
    the number of changed files for which the filter answered [true]; it is
    never negative, and reviewed and excluded files add up to the changed
    files. *)
Theorem review_summary_excluded_count (files : list FileChange) :
  Str.contains
    ("- Files excluded: " ++ Str.of_number (Z.of_nat (List.length (filter excluded files)))
     ++ " (large files, lock files, etc.)")
    (review_summary files (filter (fun file => negb (excluded file)) files))
  /\ Z.of_nat (List.length (filter (fun file => negb (excluded file)) files))
     + Z.of_nat (List.length (filter excluded files))
     = Z.of_nat (List.length files).
Proof.
  split.
  - unfold review_summary. rewrite excluded_partition.
    do 11 apply contains_skip. exists EmptyString. eexists.
    rewrite !StrFacts.app_assoc. reflexivity.
  - pose proof (excluded_partition files). lia.
Qed.

(** ** The sample code under review *)

Module SampleCodeFacts.
Import SampleCode.

Section FindDuplicates.

Variable A : Type.
Variable strict_eq : A -> A -> bool.
Hypothesis strict_eq_spec : forall x y, strict_eq x y = true <-> x = y.

Lemma strict_eq_refl (x : A) : strict_eq x x = true.
Proof. now apply strict_eq_spec. Qed.

Lemma inner_loop (x : A) (l pre : list A) (duplicates : list A) :
  for_loop (List.length pre) (List.length l)
    (fun j duplicates =>
       match nth_error (pre ++ l) j with
       | Some y => if strict_eq x y then (duplicates ++ [x])%list else duplicates
       | None => duplicates
       end) duplicates
  = (duplicates ++ repeat x (occurrences A strict_eq x l))%list.
Proof.
  revert pre duplicates. induction l as [|y l IH]; intros pre duplicates.
  - cbn. now rewrite app_nil_r.
  - cbn [List.length for_loop].
    rewrite nth_error_app2, Nat.sub_diag by lia. cbn [nth_error].
    replace (pre ++ y :: l)%list with ((pre ++ [y]) ++ l)%list
      by now rewrite <- app_assoc.
    replace (S (List.length pre)) with (List.length (pre ++ [y])%list)
      by (rewrite length_app; cbn; lia).
    rewrite IH. unfold occurrences. cbn [filter].
    destruct (strict_eq x y); cbn [List.length repeat].
    + now rewrite <- app_assoc.
    + reflexivity.
Qed.

Lemma outer_loop (l pre : list A) (duplicates : list A) :
  for_loop (List.length pre) (List.length l)
    (fun i duplicates =>
       for_loop (i + 1) (List.length (pre ++ l) - (i + 1))
         (fun j duplicates =>
            match nth_error (pre ++ l) i, nth_error (pre ++ l) j with
            | Some x, Some y =>
                if strict_eq x y then (duplicates ++ [x])%list else duplicates
            | _, _ => duplicates
            end)
         duplicates)
    duplicates
  = (duplicates ++ later_equals A strict_eq l)%list.
Proof.
  revert pre duplicates. induction l as [|x l IH]; intros pre duplicates.
  - cbn. now rewrite app_nil_r.
  - cbn [List.length for_loop later_equals].
    rewrite nth_error_app2, Nat.sub_diag by lia. cbn [nth_error].
    replace (List.length (pre ++ x :: l) - (List.length pre + 1))%nat
      with (List.length l) by (rewrite length_app; cbn; lia).
    replace (List.length pre + 1)%nat with (List.length (pre ++ [x])%list)
      by (rewrite length_app; cbn; lia).
    replace (pre ++ x :: l)%list with ((pre ++ [x]) ++ l)%list
      by now rewrite <- app_assoc.
    rewrite inner_loop.
    replace (S (List.length pre)) with (List.length (pre ++ [x])%list)
      by (rewrite length_app; cbn; lia).
    rewrite IH. now rewrite <- app_assoc.
Qed.

Lemma findDuplicates_later (arr : list A) :
  findDuplicates A strict_eq arr = later_equals A strict_eq arr.
Proof.
  unfold findDuplicates. rewrite Nat.sub_0_r.
  exact (outer_loop arr [] []).
Qed.

Lemma occ_repeat (x y : A) (n : nat) :
  occurrences A strict_eq x (repeat y n) = if strict_eq x y then n else 0%nat.
Proof.
  unfold occurrences. induction n as [|n IH]; cbn [repeat filter].
  - now destruct (strict_eq x y).
  - destruct (strict_eq x y); cbn [List.length]; now rewrite ?IH.
Qed.

Lemma occ_app (x : A) (l1 l2 : list A) :
  occurrences A strict_eq x (l1 ++ l2) = (occurrences A strict_eq x l1 + occurrences A strict_eq x l2)%nat.
Proof. unfold occurrences. now rewrite filter_app, length_app. Qed.

Lemma occ_cons (x y : A) (l : list A) :
  occurrences A strict_eq x (y :: l) = ((if strict_eq x y then 1 else 0) + occurrences A strict_eq x l)%nat.
Proof. unfold occurrences. cbn [filter]. now destruct (strict_eq x y). Qed.

Lemma occ_pairs (x : A) (l : list A) :
  (2 * occurrences A strict_eq x (later_equals A strict_eq l) = occurrences A strict_eq x l * (occurrences A strict_eq x l - 1))%nat.
Proof.
  induction l as [|y l IH]; [reflexivity|].
  cbn [later_equals]. rewrite occ_app, occ_repeat, occ_cons.
  destruct (strict_eq x y) eqn:E.
  - apply strict_eq_spec in E. subst y. nia.
  - nia.
Qed.

Lemma occ_positive (x : A) (l : list A) : In x l <-> (1 <= occurrences A strict_eq x l)%nat.
Proof.
  induction l as [|y l IH]; [cbn; split; [intros [] | lia]|].
  rewrite occ_cons. cbn [In]. destruct (strict_eq x y) eqn:E.
  - apply strict_eq_spec in E. subst y. split; [lia | now left].
  - rewrite IH. split; [|intros H; right; lia].
    intros [-> | H]; [|lia]. now rewrite strict_eq_refl in E.
Qed.

End FindDuplicates.

(** X22. [findDuplicates] reports a value once for every pair of positions
    that hold it: a value that occurs [k] times in the array occurs
    [k (k - 1) / 2] times in the result, so a value present three times is
    reported three times. *)
Theorem findDuplicates_multiplicity (A : Type) (strict_eq : A -> A -> bool)
    (arr : list A) (x : A) :
  (forall x y, strict_eq x y = true <-> x = y) ->
  (2 * occurrences A strict_eq x (findDuplicates A strict_eq arr)
   = occurrences A strict_eq x arr * (occurrences A strict_eq x arr - 1))%nat.
Proof.
  intros Heq. rewrite findDuplicates_later by exact Heq. now apply occ_pairs.
Qed.

Lemma findDuplicates_multiplicity_witness :
  (2 * occurrences Z Z.eqb 7%Z (findDuplicates Z Z.eqb [7; 1; 7; 2; 7]%Z)
   = occurrences Z Z.eqb 7%Z [7; 1; 7; 2; 7]%Z
     * (occurrences Z Z.eqb 7%Z [7; 1; 7; 2; 7]%Z - 1))%nat.
Proof.
  apply findDuplicates_multiplicity. exact Z.eqb_eq.
Defined.

(** X23. On an array of values for which [===] is equality (no [NaN]
    among them), a value is in the result of [findDuplicates] exactly when it
    occurs at least twice in the array. *)
Theorem findDuplicates_In (A : Type) (strict_eq : A -> A -> bool)
    (arr : list A) (x : A) :
  (forall x y, strict_eq x y = true <-> x = y) ->
  In x (findDuplicates A strict_eq arr)
  <-> (2 <= occurrences A strict_eq x arr)%nat.
Proof.
  intros Heq. rewrite (occ_positive A strict_eq Heq).
  pose proof (occ_pairs A strict_eq Heq x arr) as H.
  rewrite findDuplicates_later by exact Heq. nia.
Qed.

Lemma findDuplicates_In_witness :
  In 7%Z (findDuplicates Z Z.eqb [7; 1; 7; 2]%Z)
  <-> (2 <= occurrences Z Z.eqb 7%Z [7; 1; 7; 2]%Z)%nat.
Proof.
  apply findDuplicates_In. exact Z.eqb_eq.
Defined.

(** X24. On an array of values for which [===] is equality (no [NaN]
    among them), [findDuplicates] returns the empty array exactly when the
    array has no repeated value. *)
Theorem findDuplicates_empty (A : Type) (strict_eq : A -> A -> bool)
    (arr : list A) :
  (forall x y, strict_eq x y = true <-> x = y) ->
  findDuplicates A strict_eq arr = [] <-> NoDup arr.
Proof.
  intros Heq. rewrite findDuplicates_later by exact Heq.
  induction arr as [|x arr IH]; [split; [constructor | reflexivity]|].
  cbn [later_equals]. split.
  - intros H. apply app_eq_nil in H as [Hr Hl]. constructor.
    + rewrite (occ_positive A strict_eq Heq).
      destruct (occurrences A strict_eq x arr); [lia | discriminate].
    + now apply IH.
  - intros H. inversion H as [|? ? Hx Hnd]; subst.
    rewrite (proj2 IH Hnd), app_nil_r.
    rewrite (occ_positive A strict_eq Heq) in Hx.
    now replace (occurrences A strict_eq x arr) with 0%nat by lia.
Qed.

Lemma findDuplicates_empty_witness :
  findDuplicates Z Z.eqb [3; 1; 2] = [] <-> NoDup [3; 1; 2].
Proof.
  apply findDuplicates_empty. exact Z.eqb_eq.
Defined.

End SampleCodeFacts.
